(** * Course catalogue: REST backend and client-side query engine

    A shallow embedding of the backend (storage.ts, middleware.ts and the
    router), of the filter and the sort applied by the course list
    component and of the validation of the course form, with the
    properties of the specification stated over it.

    Conventions of the embedding:
    - a JavaScript value is a [value]; numbers are IEEE binary64 floats,
      as in the language; a [Date] carries its time value in milliseconds;
    - a JavaScript object whose keys matter (request bodies, stored
      courses, decoded tokens) is a [gmap string value]; a key that is not
      in the map reads as [VUndefined];
    - the module-level arrays [courses] and [users] are the two fields of
      an explicit [state], threaded through every handler;
    - clock readings are inputs of the handlers. *)

From Stdlib Require Import ZArith Floats Uint63 Ascii String List Bool Lia Sorted.
From stdpp Require Import gmap strings list pretty.

Set Warnings "-register-all".

Local Open Scope string_scope.
Local Open Scope Z_scope.

(** ** JavaScript values *)

Module JS.

Inductive value : Type :=
| VUndefined
| VNull
| VBool (b : bool)
| VNum (n : float)
| VStr (s : string)
| VDate (t : Z)
| VArr (l : list value)
| VObj (l : list (string * value)).

(** A JavaScript object used as a record or dictionary. *)
Abbreviation object := (gmap string value).

(** [o.k]: reading a property that is absent gives [undefined]. *)
Definition get (o : object) (k : string) : value :=
  default VUndefined (o !! k).

(** [typeof v] *)
Definition typeof (v : value) : string :=
  match v with
  | VUndefined => "undefined"
  | VNull => "object"
  | VBool _ => "boolean"
  | VNum _ => "number"
  | VStr _ => "string"
  | VDate _ | VArr _ | VObj _ => "object"
  end.

Definition is_nan (n : float) : bool := negb (PrimFloat.eqb n n).

(** ToBoolean: [undefined], [null], [false], [0], [-0], [NaN] and the empty
    string are falsy, everything else is truthy. *)
Definition truthy (v : value) : bool :=
  match v with
  | VUndefined | VNull => false
  | VBool b => b
  | VNum n => negb (PrimFloat.eqb n 0 || is_nan n)
  | VStr s => negb (String.eqb s "")
  | VDate _ | VArr _ | VObj _ => true
  end.

(** [a === b].  Every strict comparison of the backend has a stored value on
    one side and a value parsed from the current request on the other, so
    two objects (arrays, dates) are never the same reference: they compare
    unequal.  Numbers compare as IEEE floats ([NaN !== NaN], [0 === -0]). *)
Definition strict_eq (a b : value) : bool :=
  match a, b with
  | VUndefined, VUndefined => true
  | VNull, VNull => true
  | VBool x, VBool y => Bool.eqb x y
  | VNum x, VNum y => PrimFloat.eqb x y
  | VStr x, VStr y => String.eqb x y
  | _, _ => false
  end.

(** White space and line terminators with a code below 256. *)
Definition is_space (a : ascii) : bool :=
  let n := nat_of_ascii a in
  ((9 <=? n) && (n <=? 13) || (n =? 32) || (n =? 160))%nat.

Fixpoint trimStart (s : string) : string :=
  match s with
  | EmptyString => EmptyString
  | String a r => if is_space a then trimStart r else s
  end.

(** [s.trim()] *)
Definition trim (s : string) : string :=
  String.rev (trimStart (String.rev (trimStart s))).

Definition lower_char (a : ascii) : ascii :=
  let n := nat_of_ascii a in
  if ((65 <=? n) && (n <=? 90) ||
      (192 <=? n) && (n <=? 222) && negb (n =? 215))%nat
  then ascii_of_nat (n + 32) else a.

(** [s.toLowerCase()] on code units below 256. *)
Fixpoint toLowerCase (s : string) : string :=
  match s with
  | EmptyString => EmptyString
  | String a r => String (lower_char a) (toLowerCase r)
  end.

(** A number holding a non-negative integer (array lengths, NumericDates). *)
Definition number_of_Z (z : Z) : float :=
  match z with
  | Z0 => 0%float
  | Zpos _ => PrimFloat.of_uint63 (Uint63.of_Z z)
  | Zneg _ => PrimFloat.opp (PrimFloat.of_uint63 (Uint63.of_Z (- z)))
  end.

(** [Number.isInteger(n)] *)
Definition isInteger (n : float) : bool :=
  match Prim2SF n with
  | S754_zero _ => true
  | S754_finite _ m e =>
      (0 <=? e) || (Z.pos m mod 2 ^ (- e) =? 0)
  | S754_infinity _ | S754_nan => false
  end.

End JS.
Export JS.

(** ** Session tokens: the jsonwebtoken package as the backend uses it

    The package reads the clock as a NumericDate, in whole seconds
    ([clockTimestamp]); [iat] and [exp] are in the same unit.  A signature
    is a perfect MAC: a token verifies under a secret exactly when it was
    signed under that secret. *)

Module Jwt.

(** A token string as it arrives in a header segment: either some text that
    is not a well-formed token, or a token with its payload, signed. *)
Inductive token : Type :=
| Raw (s : string)
| Signed (key : string) (payload : object) (iat exp : Z).

Definition token_truthy (t : token) : bool :=
  match t with
  | Raw s => negb (String.eqb s "")
  | Signed _ _ _ _ => true
  end.

(** [jwt.sign(payload, secret, { expiresIn })], [expiresIn] in seconds. *)
Definition sign (payload : object) (secret : string) (expiresIn : Z)
    (clockTimestamp : Z) : token :=
  Signed secret payload clockTimestamp (clockTimestamp + expiresIn).

(** The object handed to the callback of [jwt.verify]. *)
Definition decoded (payload : object) (iat exp : Z) : object :=
  <["exp" := VNum (number_of_Z exp)]>
    (<["iat" := VNum (number_of_Z iat)]> payload).

(** [jwt.verify(token, secret, callback)]: [None] is the error case. *)
Definition verify (t : token) (secret : string) (clockTimestamp : Z)
    : option object :=
  match t with
  | Raw _ => None
  | Signed key payload iat exp =>
      if String.eqb key secret then
        if exp <=? clockTimestamp then None
        else Some (decoded payload iat exp)
      else None
  end.

End Jwt.

(** ** storage.ts *)

Module Storage.

Record User : Type := mkUser {
  u_id : string;
  u_username : value;
  u_email : value;
  u_password : string;
  u_lastLogin : value
}.

Abbreviation Course := object.

(** The two module-level arrays. *)
Record state : Type := mkState {
  courses : list Course;
  users : list User
}.

Definition seed_course (id title description category : string)
    (duration : float) (created : Z) : Course :=
  <["id" := VStr id]> (<["title" := VStr title]>
  (<["description" := VStr description]> (<["category" := VStr category]>
  (<["level" := VStr "intermediate"]> (<["duration" := VNum duration]>
  (<["published" := VBool true]> (<["createdAt" := VDate created]>
  (<["updatedAt" := VDate created]> (<["userId" := VStr "1"]> ∅))))))))).

Definition seed_courses : list Course := [
  seed_course "1" "Pearson BTEC Level 4 Diploma in Business Administration"
    "Comprehensive business administration course covering management principles, finance, marketing, and operational strategies."
    "Business & Management" 40 1705276800000;
  seed_course "2" "Level 3 Diploma in Health and Social Care"
    "Essential training for healthcare professionals covering patient care, medical ethics, and social care practices."
    "Health & Social Care" 60 1705708800000;
  seed_course "3" "BTEC Level 3 IT Diploma"
    "Complete information technology course covering programming, networking, cybersecurity, and system administration."
    "Information Technology" 80 1706140800000;
  seed_course "4" "CACHE Level 3 Award in Childcare"
    "Specialized training for childcare professionals focusing on child development, safety, and educational practices."
    "Teaching & Education" 30 1706745600000;
  seed_course "5" "AAT Level 3 Diploma in Accounting"
    "Professional accounting qualification covering financial reporting, taxation, and business finance principles."
    "Accounting & Finance" 50 1707091200000;
  seed_course "6" "Level 4 Teaching Assistant Diploma"
    "Advanced training for teaching assistants covering classroom management, special needs education, and student support."
    "Teaching & Education" 70 1707523200000
].

Definition seed_users : list User := [
  mkUser "1" (VStr "admin") (VStr "admin@example.com") "password123" VNull;
  mkUser "2" (VStr "user") (VStr "user@example.com") "user123" VNull
].

Definition init : state := mkState seed_courses seed_users.

(** [arr.findIndex(p)]; [None] stands for -1. *)
Fixpoint findIndex {A : Type} (p : A -> bool) (l : list A) : option nat :=
  match l with
  | [] => None
  | x :: r => if p x then Some 0%nat else S <$> findIndex p r
  end.

(** [addCourse]: the three clock readings are those of [Date.now()] and of
    the two [new Date()], in the order the object literal evaluates them. *)
Definition addCourse (course : object) (tid tcreated tupdated : Z)
    (cs : list Course) : Course * list Course :=
  let newCourse :=
    <["updatedAt" := VDate tupdated]>
      (<["createdAt" := VDate tcreated]>
        (<["id" := VStr (pretty tid)]> course)) in
  (newCourse, (cs ++ [newCourse])%list).

Definition findUserById (id : value) (us : list User) : option User :=
  List.find (fun u => strict_eq (VStr (u_id u)) id) us.

(** [updateCourse]: [None] when no course has this id.  [findIndex] gives
    a position of the array, so the lookup at [courseIndex] succeeds; its
    [None] case is there for totality only. *)
Definition updateCourse (id : string) (updates : object) (now : Z)
    (cs : list Course) : option Course * list Course :=
  match findIndex (fun c => strict_eq (get c "id") (VStr id)) cs with
  | None => (None, cs)
  | Some courseIndex =>
      match cs !! courseIndex with
      | None => (None, cs)
      | Some existingCourse =>
          let merged :=
            <["updatedAt" := VDate now]> (updates ∪ existingCourse) in
          (Some merged, <[courseIndex := merged]> cs)
      end
  end.

Definition deleteCourse (id : string) (cs : list Course)
    : bool * list Course :=
  match findIndex (fun c => strict_eq (get c "id") (VStr id)) cs with
  | None => (false, cs)
  | Some courseIndex => (true, delete courseIndex cs)
  end.

Definition getCourseById (id : string) (cs : list Course) : option Course :=
  List.find (fun c => strict_eq (get c "id") (VStr id)) cs.

Definition findUserByUsername (username : value) (us : list User)
    : option User :=
  List.find (fun u => strict_eq (u_username u) username) us.

End Storage.

(** ** types.ts: the response envelope *)

Module Types.
Import Jwt.

Inductive data : Type :=
| DNone
| DObject (o : object)
| DCourses (l : list object)
| DAuth (tok : token) (user : object).

(** An [ApiResponse] together with the HTTP status it is sent with. *)
Record response : Type := mkResponse {
  status : Z;
  success : bool;
  r_data : data;
  message : option string;
  error : option string
}.

Definition failure (code : Z) (err : string) : response :=
  mkResponse code false DNone None (Some err).

End Types.

(** ** middleware.ts *)

Module Middleware.
Import Jwt Storage Types.

(** [expiresIn: '24h'], in seconds. *)
Definition expiresIn : Z := 24 * 60 * 60.

Section Secret.
Variable JWT_SECRET : string.

(** The [Authorization] header is given as its segments between spaces
    ([authHeader.split(' ')]), [None] when the header is absent.  The
    result is either the response the middleware sends itself, or the
    decoded user it attaches to the request before calling [next]. *)
Definition authenticateToken (authHeader : option (list token))
    (clockTimestamp : Z) : response + object :=
  let token := authHeader ≫= (fun segments => segments !! 1%nat) in
  match token with
  | None => inl (failure 401 "Access token required")
  | Some tok =>
      if negb (token_truthy tok) then
        inl (failure 401 "Access token required")
      else
        match Jwt.verify tok JWT_SECRET clockTimestamp with
        | None => inl (failure 403 "Invalid or expired token")
        | Some user => inr user
        end
  end.

Definition generateToken (user : object) (clockTimestamp : Z) : token :=
  Jwt.sign user JWT_SECRET expiresIn clockTimestamp.

End Secret.

Definition trim_is_empty (v : value) : bool :=
  match v with
  | VStr s => (String.length (trim s) =? 0)%nat
  | _ => false
  end.

(** [!v || typeof v !== 'string' || v.trim().length === 0] *)
Definition not_text (v : value) : bool :=
  negb (truthy v) || negb (String.eqb (typeof v) "string") ||
  trim_is_empty v.

Definition levels : list value :=
  [VStr "beginner"; VStr "intermediate"; VStr "advanced"].

(** [!level || !levels.includes(level)] *)
Definition not_level (v : value) : bool :=
  negb (truthy v) || negb (existsb (strict_eq v) levels).

(** [typeof duration !== 'number' || duration <= 0] *)
Definition not_duration (v : value) : bool :=
  negb (String.eqb (typeof v) "number") ||
  match v with VNum n => PrimFloat.leb n 0 | _ => false end.

(** [typeof published !== 'boolean'] *)
Definition not_boolean (v : value) : bool :=
  negb (String.eqb (typeof v) "boolean").

Definition push_if (b : bool) (msg : string) (errors : list string)
    : list string :=
  if b then (errors ++ [msg])%list else errors.

(** The six keys [validateCourse] reads from the body. *)
Definition course_fields : list string :=
  ["title"; "description"; "category"; "level"; "duration"; "published"].

(** The [errors] array of [validateCourse] when all checks have run. *)
Definition course_errors (body : object) : list string :=
  let errors := [] in
  let errors := push_if (not_text (get body "title"))
    "Title is required and must be a non-empty string" errors in
  let errors := push_if (not_text (get body "description"))
    "Description is required and must be a non-empty string" errors in
  let errors := push_if (not_text (get body "category"))
    "Category is required and must be a non-empty string" errors in
  let errors := push_if (not_level (get body "level"))
    "Level must be one of: beginner, intermediate, advanced" errors in
  let errors := push_if (not_duration (get body "duration"))
    "Duration must be a positive number" errors in
  let errors := push_if (not_boolean (get body "published"))
    "Published must be a boolean" errors in
  errors.

(** [validateCourse]: [Some] is the 400 response, [None] is [next()]. *)
Definition validateCourse (body : object) : option response :=
  let errors := course_errors body in
  if (0 <? length errors)%nat then
    Some (failure 400 (String.concat ", " errors))
  else None.

End Middleware.

(** ** The router *)

Module Routes.
Import Jwt Storage Types Middleware.

(** [[^\s@]] *)
Definition email_char (a : ascii) : bool :=
  negb (is_space a) && negb (Ascii.eqb a "@").

(** The longest prefix of [email_char]s and what follows it. *)
Fixpoint email_local (l : list ascii) : list ascii * list ascii :=
  match l with
  | a :: r =>
      if email_char a then
        let (p, q) := email_local r in (a :: p, q)
      else ([], l)
  | [] => ([], [])
  end.

(** Some ["."] of the list has an element before it and one after it. *)
Fixpoint inner_dot (l : list ascii) : bool :=
  match l with
  | _ :: ((b :: _ :: _) as r) => Ascii.eqb b "." || inner_dot r
  | _ => false
  end.

(** [/^[^\s@]+@[^\s@]+\.[^\s@]+$/.test(s)] on a string. *)
Definition emailRegex_test (s : string) : bool :=
  let (loc, rest) := email_local (list_ascii_of_string s) in
  match rest with
  | a :: domain =>
      Ascii.eqb a "@" && negb (Nat.eqb (length loc) 0) &&
      forallb email_char domain && inner_dot domain
  | [] => false
  end.

(** [v ?? null] *)
Definition or_null (v : value) : value :=
  match v with
  | VUndefined | VNull => VNull
  | _ => v
  end.

(** What a handler reads besides the body and the path: the segments of
    the [Authorization] header, the successive readings of the millisecond
    clock ([Date.now()], [new Date()]) made while the request is handled,
    and the reading of the clock by the token package. *)
Record context : Type := mkContext {
  authorization : option (list token);
  now : nat -> Z;
  clockTimestamp : Z
}.

Inductive request : Type :=
| POST_auth_login (body : object)
| POST_auth_logout
| GET_courses
| GET_courses_id (id : string)
| POST_courses (body : object)
| PUT_courses_id (id : string) (body : object)
| DELETE_courses_id (id : string)
| GET_profile
| PUT_profile (body : object).

Section Server.

(** [process.env.JWT_SECRET || 'your-secret-key'] *)
Variable JWT_SECRET : string.

(** ToString on the values that are not strings. *)
Variable ToString_other : value -> string.

Definition ToString (v : value) : string :=
  match v with
  | VStr s => s
  | _ => ToString_other v
  end.

Definition set_lastLogin (d : value) (u : User) : User :=
  mkUser (u_id u) (u_username u) (u_email u) (u_password u) d.

Definition user_json (u : User) (lastLogin : value) : object :=
  <["id" := VStr (u_id u)]> (<["username" := u_username u]>
  (<["email" := u_email u]> (<["lastLogin" := or_null lastLogin]> ∅))).

Definition post_auth_login (ctx : context) (body : object) (st : state)
    : response * state :=
  let username := get body "username" in
  let password := get body "password" in
  if negb (truthy username) || negb (truthy password) then
    (failure 400 "Username and password are required", st)
  else
    match findUserByUsername username (users st) with
    | None => (failure 401 "Invalid credentials", st)
    | Some user =>
        if negb (strict_eq (VStr (u_password user)) password) then
          (failure 401 "Invalid credentials", st)
        else
          let userIndex :=
            findIndex (fun u => String.eqb (u_id u) (u_id user)) (users st) in
          let users' :=
            match userIndex with
            | Some i => alter (set_lastLogin (VDate (now ctx 0%nat))) i (users st)
            | None => users st
            end in
          let token :=
            generateToken JWT_SECRET
              (<["id" := VStr (u_id user)]>
                (<["username" := u_username user]> ∅))
              (clockTimestamp ctx) in
          let lastLogin :=
            match userIndex ≫= (fun i => users' !! i) with
            | Some u => u_lastLogin u
            | None => VUndefined
            end in
          (mkResponse 200 true (DAuth token (user_json user lastLogin))
             None None,
           mkState (courses st) users')
    end.

(** Runs [k] on the decoded user when [authenticateToken] calls [next]. *)
Definition authenticated (ctx : context) (st : state)
    (k : object -> response * state) : response * state :=
  match authenticateToken JWT_SECRET (authorization ctx) (clockTimestamp ctx) with
  | inl r => (r, st)
  | inr user => k user
  end.

(** Runs [k] when [validateCourse] calls [next]. *)
Definition validated (body : object) (st : state)
    (k : response * state) : response * state :=
  match validateCourse body with
  | Some r => (r, st)
  | None => k
  end.

Definition message_data (msg : string) : data :=
  DObject {["message" := VStr msg]}.

Definition post_auth_logout (ctx : context) (st : state)
    : response * state :=
  authenticated ctx st (fun _ =>
    (mkResponse 200 true (message_data "Logged out successfully") None None,
     st)).

Definition get_courses (st : state) : response * state :=
  (mkResponse 200 true (DCourses (courses st)) None None, st).

Definition get_courses_id (id : string) (st : state) : response * state :=
  if String.eqb id "" then (failure 400 "Course ID is required", st)
  else
    match getCourseById id (courses st) with
    | None => (failure 404 "Course not found", st)
    | Some course => (mkResponse 200 true (DObject course) None None, st)
    end.

Definition post_courses (ctx : context) (body : object) (st : state)
    : response * state :=
  authenticated ctx st (fun _ =>
  validated body st
    (let (newCourse, courses') :=
       addCourse body (now ctx 0%nat) (now ctx 1%nat) (now ctx 2%nat)
         (courses st) in
     (mkResponse 201 true (DObject newCourse)
        (Some "Course created successfully") None,
      mkState courses' (users st)))).

Definition put_courses_id (ctx : context) (id : string) (body : object)
    (st : state) : response * state :=
  authenticated ctx st (fun _ =>
  validated body st
    (if String.eqb id "" then (failure 400 "Course ID is required", st)
     else
       match updateCourse id body (now ctx 0%nat) (courses st) with
       | (None, _) => (failure 404 "Course not found", st)
       | (Some updatedCourse, courses') =>
           (mkResponse 200 true (DObject updatedCourse)
              (Some "Course updated successfully") None,
            mkState courses' (users st))
       end)).

Definition delete_courses_id (ctx : context) (id : string) (st : state)
    : response * state :=
  authenticated ctx st (fun _ =>
    if String.eqb id "" then (failure 400 "Course ID is required", st)
    else
      match deleteCourse id (courses st) with
      | (false, _) => (failure 404 "Course not found", st)
      | (true, courses') =>
          (mkResponse 200 true (message_data "Course deleted successfully")
             None None,
           mkState courses' (users st))
      end).

(** The handler takes [req.user], the decoded token, for the user. *)
Definition get_profile (ctx : context) (st : state) : response * state :=
  authenticated ctx st (fun user =>
    let userCourses :=
      List.filter (fun course => strict_eq (get course "userId") (get user "id"))
        (courses st) in
    let profileData :=
      <["lastLogin" := get user "lastLogin"]>
        (<["coursesCreated" := VNum (number_of_Z (Z.of_nat (length userCourses)))]>
          user) in
    (mkResponse 200 true (DObject profileData) None None, st)).

Definition set_profile (username email : value) (u : User) : User :=
  mkUser (u_id u) username email (u_password u) (u_lastLogin u).

(** As in [updateCourse], the lookup at [userIndex] always succeeds. *)
Definition put_profile (ctx : context) (body : object) (st : state)
    : response * state :=
  authenticated ctx st (fun user =>
    let username := get body "username" in
    let email := get body "email" in
    if negb (truthy username) || negb (truthy email) then
      (failure 400 "Username and email are required", st)
    else if negb (emailRegex_test (ToString email)) then
      (failure 400 "Invalid email format", st)
    else
      match findIndex (fun u => strict_eq (VStr (u_id u)) (get user "id"))
              (users st) with
      | None => (failure 404 "User not found", st)
      | Some userIndex =>
          match List.find (fun u => strict_eq (u_username u) username &&
                             negb (strict_eq (VStr (u_id u)) (get user "id")))
                  (users st) with
          | Some existingUser => (failure 409 "Username already taken", st)
          | None =>
              match users st !! userIndex with
              | None => (failure 404 "User not found", st)
              | Some old =>
                  let updatedUser := set_profile username email old in
                  (mkResponse 200 true
                     (DObject (user_json updatedUser (u_lastLogin updatedUser)))
                     (Some "Profile updated successfully") None,
                   mkState (courses st) (<[userIndex := updatedUser]> (users st)))
              end
          end
      end).

(** One request handled to completion against the shared arrays. *)
Definition handle (ctx : context) (r : request) (st : state)
    : response * state :=
  match r with
  | POST_auth_login body => post_auth_login ctx body st
  | POST_auth_logout => post_auth_logout ctx st
  | GET_courses => get_courses st
  | GET_courses_id id => get_courses_id id st
  | POST_courses body => post_courses ctx body st
  | PUT_courses_id id body => put_courses_id ctx id body st
  | DELETE_courses_id id => delete_courses_id ctx id st
  | GET_profile => get_profile ctx st
  | PUT_profile body => put_profile ctx body st
  end.


End Server.

End Routes.

(** ** What the specification says of the user collection *)

Module Users.
Import Storage.








End Users.

(** ** The course list component: the sorted view *)

Module CourseList.

(** A course as the client holds it after [JSON.parse]: the two dates are
    the strings the server serialised. *)
Record Course : Type := mkCourse {
  id : string;
  title : string;
  description : string;
  category : string;
  level : string;
  duration : float;
  published : bool;
  userId : string;
  createdAt : string;
  updatedAt : string
}.

Inductive direction : Type := asc | desc.

(** The two kinds of value the comparator puts in [aValue] and [bValue]:
    a string, or a number (a [Date] compares by its time value). *)
Inductive operand : Type :=
| OStr (s : string)
| ONum (n : float).

(** [a < b]; both operands come from the same field, so they are of the
    same kind.  Strings compare by code units, numbers as IEEE floats. *)
Definition js_lt (a b : operand) : bool :=
  match a, b with
  | OStr x, OStr y => String.ltb x y
  | ONum x, ONum y => PrimFloat.ltb x y
  | _, _ => false
  end.

(** [Array.prototype.sort(compareFn)].  The language requires the sort to
    be stable; it is taken as the stable insertion sort: an element goes
    before the first element of the sorted rest that does not compare
    below it. *)
Section ArraySort.
Context {A : Type}.
Variable compareFn : A -> A -> Z.

Fixpoint sort_insert (x : A) (l : list A) : list A :=
  match l with
  | [] => [x]
  | y :: r =>
      if compareFn x y <=? 0 then x :: y :: r
      else y :: sort_insert x r
  end.

Fixpoint Array_sort (l : list A) : list A :=
  match l with
  | [] => []
  | x :: r => sort_insert x (Array_sort r)
  end.

End ArraySort.

Section View.

(** The time value of [new Date(s)], [NaN] for an invalid date. *)
Variable Date_time : string -> float.

(** The [switch] on [sortField]; [None] is the [default] case. *)
Definition sort_value (sortField : string) (c : Course) : option operand :=
  if String.eqb sortField "title" then Some (OStr (toLowerCase (title c)))
  else if String.eqb sortField "category" then
    Some (OStr (toLowerCase (category c)))
  else if String.eqb sortField "level" then Some (OStr (level c))
  else if String.eqb sortField "duration" then Some (ONum (duration c))
  else if String.eqb sortField "createdAt" then
    Some (ONum (Date_time (createdAt c)))
  else if String.eqb sortField "updatedAt" then
    Some (ONum (Date_time (updatedAt c)))
  else None.

(** The comparator passed to [sort]. *)
Definition compareCourses (sortField : string) (sortDirection : direction)
    (a b : Course) : Z :=
  match sort_value sortField a, sort_value sortField b with
  | Some aValue, Some bValue =>
      if js_lt aValue bValue then
        match sortDirection with asc => -1 | desc => 1 end
      else if js_lt bValue aValue then
        match sortDirection with asc => 1 | desc => -1 end
      else 0
  | _, _ => 0
  end.

Definition sortedCourses (sortField : string) (sortDirection : direction)
    (filteredCourses : list Course) : list Course :=
  Array_sort (compareCourses sortField sortDirection) filteredCourses.

End View.

End CourseList.

(** ** The course form: the client-side check of the duration *)

Module CourseForm.

(** [formData.duration <= 0 || !Number.isInteger(formData.duration)]: the
    condition under which [validate] reports "Duration must be a positive
    integer" and the form is not submitted. *)
Definition duration_error (duration : float) : bool :=
  PrimFloat.leb duration 0 || negb (isInteger duration).

End CourseForm.

(** ** The course list component: the filtered view *)

Module CourseFilter.
Import CourseList.

(** [hay.includes(needle)] on strings. *)
Fixpoint includes (hay needle : string) : bool :=
  String.prefix needle hay ||
  match hay with
  | String _ r => includes r needle
  | EmptyString => false
  end.

(** The filter state of the component: [publishedFilter] is [None] for
    [null]. *)
Record criteria : Type := mkCriteria {
  searchQuery : string;
  selectedCategories : list string;
  selectedLevel : string;
  publishedFilter : option bool
}.

(** The state [clearFilters] sets. *)
Definition cleared : criteria := mkCriteria "" [] "" None.

Definition matchesSearch (c : criteria) (course : Course) : bool :=
  String.eqb (searchQuery c) "" ||
  includes (toLowerCase (title course)) (toLowerCase (searchQuery c)) ||
  includes (toLowerCase (description course)) (toLowerCase (searchQuery c)).

Definition matchesCategory (c : criteria) (course : Course) : bool :=
  Nat.eqb (length (selectedCategories c)) 0 ||
  existsb (String.eqb (category course)) (selectedCategories c).

Definition matchesLevel (c : criteria) (course : Course) : bool :=
  String.eqb (selectedLevel c) "" ||
  String.eqb (level course) (selectedLevel c).

Definition matchesPublished (c : criteria) (course : Course) : bool :=
  match publishedFilter c with
  | None => true
  | Some b => Bool.eqb (published course) b
  end.

(** The callback of [courses.filter]. *)
Definition matches (c : criteria) (course : Course) : bool :=
  matchesSearch c course && matchesCategory c course &&
  matchesLevel c course && matchesPublished c course.

Definition filteredCourses (c : criteria) (courses : list Course)
    : list Course :=
  List.filter (matches c) courses.

End CourseFilter.

(** ** The course form: validation and the body it submits *)

Module CourseFormData.
Import Middleware.

Record FormData : Type := mkFormData {
  title : string;
  description : string;
  category : string;
  level : string;
  duration : float;
  published : bool;
  userId : string
}.

Definition set_if (b : bool) (k msg : string) (errors : gmap string string)
    : gmap string string :=
  if b then <[k := msg]> errors else errors.

(** The [newErrors] object of [validate]. *)
Definition form_errors (f : FormData) : gmap string string :=
  let newErrors := ∅ in
  let newErrors :=
    set_if (String.eqb (trim (title f)) "") "title" "Title is required"
      newErrors in
  let newErrors :=
    set_if (String.eqb (trim (description f)) "") "description"
      "Description is required" newErrors in
  let newErrors :=
    set_if (String.eqb (trim (category f)) "") "category"
      "Category is required" newErrors in
  let newErrors :=
    set_if (negb (existsb (String.eqb (level f))
                    ["beginner"; "intermediate"; "advanced"]))
      "level" "Invalid level" newErrors in
  let newErrors :=
    set_if (CourseForm.duration_error (duration f)) "duration"
      "Duration must be a positive integer" newErrors in
  newErrors.

(** [validate()]: [Object.keys(newErrors).length === 0]. *)
Definition validate (f : FormData) : bool :=
  Nat.eqb (size (form_errors f)) 0.

(** A number after [JSON.stringify] and [JSON.parse]: infinities and [NaN]
    are written as [null], a zero loses its sign. *)
Definition json_number (n : float) : value :=
  match Prim2SF n with
  | S754_infinity _ | S754_nan => VNull
  | S754_zero _ => VNum 0
  | S754_finite _ _ _ => VNum n
  end.

(** The body the server parses from [JSON.stringify(formData)]. *)
Definition request_body (f : FormData) : object :=
  <["title" := VStr (title f)]> (<["description" := VStr (description f)]>
  (<["category" := VStr (category f)]> (<["level" := VStr (level f)]>
  (<["duration" := json_number (duration f)]>
  (<["published" := VBool (published f)]>
  (<["userId" := VStr (userId f)]> ∅)))))).

End CourseFormData.

(** ** Notions the properties are stated with *)

Module Notions.
Import Routes.

(** A string of white space only (the empty string included). *)
Definition blank (s : string) : bool :=
  forallb is_space (list_ascii_of_string s).

(** The routes registered with [authenticateToken]. *)
Definition protected (r : request) : bool :=
  match r with
  | POST_auth_login _ | GET_courses | GET_courses_id _ => false
  | POST_auth_logout | POST_courses _ | PUT_courses_id _ _
  | DELETE_courses_id _ | GET_profile | PUT_profile _ => true
  end.

End Notions.

(** ** Concrete requests, used to run the handlers *)

Module Scenario.
Import Jwt Storage Types Middleware Routes.

(** The secret when the environment does not set one. *)
Definition default_secret : string := "your-secret-key".

(** A stand-in for ToString on non-strings; no scenario below reaches it. *)
Definition to_string_stub (v : value) : string := "".

Definition run : context -> request -> state -> response * state :=
  handle default_secret to_string_stub.

(** The property [k] of the object a response carries as its data. *)
Definition response_field (r : response) (k : string) : option value :=
  match r_data r with
  | DObject o => o !! k
  | DAuth _ user => user !! k
  | _ => None
  end.

(** The token a login response carries. *)
Definition response_token (r : response) : option token :=
  match r_data r with
  | DAuth tok _ => Some tok
  | _ => None
  end.

(** A request with the given token, at the given second. *)
Definition bearer (tok : option token) (seconds : Z) : context :=
  mkContext (Some (Raw "Bearer" :: option_list tok))
    (fun _ => seconds * 1000) seconds.

(** The token of user "2", issued at second 1700000000. *)
Definition user_token : token :=
  generateToken default_secret
    (<["id" := VStr "2"]> (<["username" := VStr "user"]> ∅)) 1700000000.

(** A request one minute later, with that token, at a fixed millisecond. *)
Definition as_user : context :=
  mkContext (Some [Raw "Bearer"; user_token])
    (fun _ => 1700000060000) 1700000060.

Definition anonymous : context :=
  mkContext None (fun _ => 1700000060000) 1700000060.

(** The body of the specification's create scenario. *)
Definition course_T : object :=
  <["title" := VStr "T"]> (<["description" := VStr "D"]>
  (<["category" := VStr "C"]> (<["level" := VStr "beginner"]>
  (<["duration" := VNum 5]> (<["published" := VBool false]> ∅))))).

(** The same body with a duration of two hours and a half. *)
Definition course_half_hours : object :=
  <["duration" := VNum 2.5]> course_T.

(** The credentials of the second seed user. *)
Definition user_credentials : object :=
  <["username" := VStr "user"]> (<["password" := VStr "user123"]> ∅).


(** The token of user "1", issued at second 1700000000, and a request
    with it one minute later. *)
Definition admin_claims : object :=
  decoded (<["id" := VStr "1"]> (<["username" := VStr "admin"]> ∅))
    1700000000 (1700000000 + expiresIn).




(** A partial update: only the title, which is a valid title. *)
Definition title_only : object := {["title" := VStr "A new title"]}.

(** What [authenticateToken] attaches to such a request. *)
Definition user_claims : object :=
  decoded (<["id" := VStr "2"]> (<["username" := VStr "user"]> ∅))
    1700000000 (1700000000 + expiresIn).

(** The same body with the three generated keys supplied by the client. *)
Definition course_T_with_generated : object :=
  <["id" := VStr "1"]> (<["createdAt" := VStr "2000-01-01T00:00:00.000Z"]>
  (<["updatedAt" := VNull]> course_T)).

End Scenario.

(** * Properties *)

(** Closed statements about concrete requests are settled by evaluation. *)
Ltac by_running :=
  vm_compute;
  repeat match goal with
         | |- _ /\ _ => split
         | |- exists _, _ => eexists
         end;
  reflexivity.

(** ** Comparison of numbers and strings *)

Lemma SFltb_asym (x y : spec_float) : SFltb x y = true -> SFltb y x = false.
Proof.
  unfold SFltb, SFcompare.
  destruct x as [sx|sx| |sx mx ex], y as [sy|sy| |sy my ey];
    try destruct sx; try destruct sy; try discriminate; try reflexivity.
  all: pose proof (Pos.compare_cont_antisym mx my Eq) as P; simpl in P.
  all: rewrite (Z.compare_antisym ex ey), <- P.
  all: destruct (ex ?= ey); simpl; try discriminate; try reflexivity.
  all: destruct (Pos.compare_cont Eq mx my); simpl; try discriminate;
    reflexivity.
Qed.

Lemma float_ltb_asym (x y : float) :
  PrimFloat.ltb x y = true -> PrimFloat.ltb y x = false.
Proof. rewrite !FloatAxioms.ltb_spec. apply SFltb_asym. Qed.

Lemma SFeqb_sym (x y : spec_float) : SFeqb x y = SFeqb y x.
Proof.
  unfold SFeqb, SFcompare.
  destruct x as [sx|sx| |sx mx ex], y as [sy|sy| |sy my ey];
    try destruct sx; try destruct sy; try reflexivity.
  all: pose proof (Pos.compare_cont_antisym mx my Eq) as P; simpl in P.
  all: rewrite (Z.compare_antisym ex ey), <- P.
  all: destruct (ex ?= ey); simpl; try reflexivity.
  all: destruct (Pos.compare_cont Eq mx my); reflexivity.
Qed.

Lemma float_eqb_sym (x y : float) : PrimFloat.eqb x y = PrimFloat.eqb y x.
Proof. rewrite !FloatAxioms.eqb_spec. apply SFeqb_sym. Qed.




Lemma strict_eq_sym (a b : value) : strict_eq a b = strict_eq b a.
Proof.
  destruct a, b; simpl; try reflexivity.
  - destruct b, b0; reflexivity.
  - apply float_eqb_sym.
  - apply String.eqb_sym.
Qed.

Lemma string_ltb_asym (x y : string) :
  String.ltb x y = true -> String.ltb y x = false.
Proof.
  unfold String.ltb. rewrite (String.compare_antisym x y).
  destruct (String.compare y x); simpl; congruence.
Qed.

(** ** The sorted view *)

Module SortFacts.
Import CourseList.

Section Insertion.
Context {A : Type}.
Variable compareFn : A -> A -> Z.

(** Each element is not above its successor. *)
Definition in_order : list A -> Prop :=
  Sorted (fun x y => compareFn x y <= 0).

(** The one fact about the comparator the argument needs: when [x]
    compares above [y], [y] does not compare above [x]. *)
Hypothesis compare_flip :
  forall x y, 0 < compareFn x y -> compareFn y x <= 0.

Lemma sort_insert_in_order (x : A) (l : list A) :
  in_order l -> in_order (sort_insert compareFn x l).
Proof.
  unfold in_order.
  induction l as [|y r IH]; intros Hl; simpl.
  - repeat constructor.
  - destruct (Z.leb_spec (compareFn x y) 0) as [Hle|Hgt].
    + constructor; [assumption | constructor; assumption].
    + apply Sorted_inv in Hl. destruct Hl as [Hr Hhd].
      constructor; [apply IH; assumption |].
      destruct r as [|z r']; simpl.
      * constructor. apply compare_flip. assumption.
      * destruct (Z.leb_spec (compareFn x z) 0).
        -- constructor. apply compare_flip. assumption.
        -- constructor. apply HdRel_inv in Hhd. assumption.
Qed.

Lemma Array_sort_in_order (l : list A) : in_order (Array_sort compareFn l).
Proof.
  induction l as [|x r IH]; simpl.
  - constructor.
  - apply sort_insert_in_order. assumption.
Qed.

Lemma Array_sort_fixed (l : list A) :
  in_order l -> Array_sort compareFn l = l.
Proof.
  unfold in_order.
  induction l as [|x r IH]; intros Hl; simpl; [reflexivity |].
  apply Sorted_inv in Hl. destruct Hl as [Hr Hhd].
  rewrite IH by assumption.
  destruct r as [|y r']; simpl; [reflexivity |].
  apply HdRel_inv in Hhd.
  destruct (Z.leb_spec (compareFn x y) 0); [reflexivity | lia].
Qed.

Lemma Array_sort_twice (l : list A) :
  Array_sort compareFn (Array_sort compareFn l) = Array_sort compareFn l.
Proof. apply Array_sort_fixed, Array_sort_in_order. Qed.

End Insertion.

Lemma js_lt_asym (a b : operand) : js_lt a b = true -> js_lt b a = false.
Proof.
  destruct a, b; simpl; try reflexivity.
  - apply string_ltb_asym.
  - apply float_ltb_asym.
Qed.

Lemma compareCourses_flip (Date_time : string -> float) (sortField : string)
    (sortDirection : direction) (a b : Course) :
  0 < compareCourses Date_time sortField sortDirection a b ->
  compareCourses Date_time sortField sortDirection b a <= 0.
Proof.
  unfold compareCourses.
  destruct (sort_value Date_time sortField a) as [av|],
           (sort_value Date_time sortField b) as [bv|]; try lia.
  destruct (js_lt av bv) eqn:Hab.
  - rewrite (js_lt_asym _ _ Hab). destruct sortDirection; lia.
  - destruct (js_lt bv av); destruct sortDirection; lia.
Qed.

End SortFacts.

(** C7.  For every list of courses, every sort field (the six of the
    sort spec, and any other string, for which the comparator is constant)
    and both directions, sorting the sorted view again with the same spec
    gives the sorted view itself. *)
Theorem sortedCourses_idempotent (Date_time : string -> float)
    (sortField : string) (sortDirection : CourseList.direction)
    (courses : list CourseList.Course) :
  CourseList.sortedCourses Date_time sortField sortDirection
    (CourseList.sortedCourses Date_time sortField sortDirection courses)
  = CourseList.sortedCourses Date_time sortField sortDirection courses.
Proof.
  unfold CourseList.sortedCourses.
  apply SortFacts.Array_sort_twice.
  intros x y. apply SortFacts.compareCourses_flip.
Qed.

(** ** Arrays *)

Module ArrayFacts.
Import Storage.

Lemma findIndex_None {A : Type} (p : A -> bool) (l : list A) :
  findIndex p l = None <-> Forall (fun x => p x = false) l.
Proof.
  induction l as [|x r IH]; simpl.
  - split; [constructor | reflexivity].
  - destruct (p x) eqn:Hp.
    + split; [discriminate |]. intros H. apply Forall_cons in H as [H _].
      congruence.
    + destruct (findIndex p r); simpl.
      * split; [discriminate |]. intros H. apply Forall_cons in H as [_ H].
        apply IH in H. discriminate.
      * split; [| reflexivity]. intros _. constructor; [assumption |].
        apply IH. reflexivity.
Qed.

Lemma findIndex_Some {A : Type} (p : A -> bool) (l : list A) (i : nat) :
  findIndex p l = Some i ->
  exists x, l !! i = Some x /\ p x = true /\
    forall j y, (j < i)%nat -> l !! j = Some y -> p y = false.
Proof.
  revert i. induction l as [|x r IH]; intros i; simpl; [discriminate |].
  destruct (p x) eqn:Hp.
  - intros [= <-]. exists x. repeat split; [assumption |]. intros j y Hj. lia.
  - destruct (findIndex p r) as [k|]; simpl; [| discriminate].
    intros [= <-]. destruct (IH k eq_refl) as (z & Hz & Hpz & Hlt).
    exists z. repeat split; try assumption.
    intros [|j] y Hj; simpl.
    + intros [= <-]. assumption.
    + apply Hlt. lia.
Qed.

End ArrayFacts.

(** ** Deleting *)

(** C6.  For every state and every identifier that no stored course has,
    [deleteCourse] reports that nothing was deleted and the authenticated
    DELETE request answers 404 "Course not found"; the collection after
    the call is the collection before it.  (A route parameter is never the
    empty string.) *)
Theorem delete_unknown_course (secret : string) (ts : value -> string)
    (ctx : Routes.context) (id : string) (st : Storage.state) (user : object) :
  id <> "" ->
  Middleware.authenticateToken secret (Routes.authorization ctx)
    (Routes.clockTimestamp ctx) = inr user ->
  Forall (fun c => strict_eq (get c "id") (VStr id) = false)
    (Storage.courses st) ->
  Storage.deleteCourse id (Storage.courses st) = (false, Storage.courses st) /\
  Routes.handle secret ts ctx (Routes.DELETE_courses_id id) st
    = (Types.failure 404 "Course not found", st).
Proof.
  intros Hid Hauth Hnone.
  apply ArrayFacts.findIndex_None in Hnone.
  assert (Hdel : Storage.deleteCourse id (Storage.courses st)
                 = (false, Storage.courses st)).
  { unfold Storage.deleteCourse. rewrite Hnone. reflexivity. }
  split; [exact Hdel |].
  simpl. unfold Routes.delete_courses_id, Routes.authenticated.
  rewrite Hauth.
  apply String.eqb_neq in Hid. rewrite Hid, Hdel. reflexivity.
Qed.

Lemma delete_unknown_course_witness :
  Storage.deleteCourse "999" (Storage.courses Storage.init)
    = (false, Storage.courses Storage.init) /\
  Scenario.run Scenario.as_user (Routes.DELETE_courses_id "999") Storage.init
    = (Types.failure 404 "Course not found", Storage.init).
Proof.
  apply (delete_unknown_course Scenario.default_secret Scenario.to_string_stub
           Scenario.as_user "999" Storage.init Scenario.user_claims).
  - discriminate.
  - vm_compute. reflexivity.
  - repeat constructor.
Defined.

(** ** Creating *)

(** C10.  For every body that passes validation, whatever it holds under
    the keys [id], [createdAt] and [updatedAt], the authenticated POST
    stores and returns the body with these three keys overwritten: [id] is
    the decimal text of the clock reading taken for it, [createdAt] and
    [updatedAt] are the dates read while the course is built. *)
Theorem create_overrides_generated_fields (secret : string)
    (ts : value -> string) (ctx : Routes.context) (body : object)
    (st : Storage.state) (user : object) :
  Middleware.authenticateToken secret (Routes.authorization ctx)
    (Routes.clockTimestamp ctx) = inr user ->
  Middleware.validateCourse body = None ->
  exists newCourse : object,
    Routes.handle secret ts ctx (Routes.POST_courses body) st
      = (Types.mkResponse 201 true (Types.DObject newCourse)
           (Some "Course created successfully") None,
         Storage.mkState (Storage.courses st ++ [newCourse])%list
           (Storage.users st)) /\
    newCourse !! "id" = Some (VStr (pretty (Routes.now ctx 0%nat))) /\
    newCourse !! "createdAt" = Some (VDate (Routes.now ctx 1%nat)) /\
    newCourse !! "updatedAt" = Some (VDate (Routes.now ctx 2%nat)) /\
    forall k, k <> "id" -> k <> "createdAt" -> k <> "updatedAt" ->
      newCourse !! k = body !! k.
Proof.
  intros Hauth Hvalid.
  eexists. split.
  - simpl. unfold Routes.post_courses, Routes.authenticated, Routes.validated.
    rewrite Hauth, Hvalid. simpl. reflexivity.
  - repeat split.
    + rewrite lookup_insert_ne, lookup_insert_ne by discriminate.
      apply lookup_insert_eq.
    + rewrite lookup_insert_ne by discriminate. apply lookup_insert_eq.
    + apply lookup_insert_eq.
    + intros k H1 H2 H3.
      rewrite !lookup_insert_ne by congruence. reflexivity.
Qed.

Lemma create_overrides_generated_fields_witness :
  exists newCourse : object,
    Scenario.run Scenario.as_user
      (Routes.POST_courses Scenario.course_T_with_generated) Storage.init
      = (Types.mkResponse 201 true (Types.DObject newCourse)
           (Some "Course created successfully") None,
         Storage.mkState (Storage.seed_courses ++ [newCourse])%list
           Storage.seed_users) /\
    newCourse !! "id" = Some (VStr "1700000060000") /\
    newCourse !! "createdAt" = Some (VDate 1700000060000) /\
    newCourse !! "updatedAt" = Some (VDate 1700000060000) /\
    forall k, k <> "id" -> k <> "createdAt" -> k <> "updatedAt" ->
      newCourse !! k = Scenario.course_T_with_generated !! k.
Proof.
  apply (create_overrides_generated_fields Scenario.default_secret
           Scenario.to_string_stub Scenario.as_user
           Scenario.course_T_with_generated Storage.init Scenario.user_claims).
  - vm_compute. reflexivity.
  - vm_compute. reflexivity.
Defined.

(** ** Updating *)

Module ValidationFacts.
Import Middleware Types.

Lemma push_if_length (b : bool) (msg : string) (errors : list string) :
  (length errors <= length (push_if b msg errors))%nat.
Proof. destruct b; simpl; [rewrite length_app; simpl |]; lia. Qed.

Lemma push_if_true_length (msg : string) (errors : list string) :
  (0 < length (push_if true msg errors))%nat.
Proof. simpl. rewrite length_app. simpl. lia. Qed.

(** A body without one of the six keys leaves an error in the array. *)
Lemma missing_field_errors (body : object) (k : string) :
  In k course_fields -> body !! k = None ->
  (0 < length (course_errors body))%nat.
Proof.
  intros Hk Hnone. unfold course_errors.
  assert (Hget : get body k = VUndefined) by (unfold get; rewrite Hnone; reflexivity).
  simpl in Hk.
  repeat (destruct Hk as [<-|Hk]);
    try (rewrite Hget;
         repeat first
           [ apply push_if_true_length
           | eapply Nat.lt_le_trans; [| apply push_if_length] ]).
  contradiction.
Qed.

Lemma missing_field_rejected (body : object) (k : string) :
  In k course_fields -> body !! k = None ->
  validateCourse body
    = Some (failure 400 (String.concat ", " (course_errors body))).
Proof.
  intros Hk Hnone. unfold validateCourse.
  pose proof (missing_field_errors body k Hk Hnone) as Hlen.
  apply Nat.ltb_lt in Hlen. rewrite Hlen. reflexivity.
Qed.

Lemma valid_has_fields (body : object) (k : string) :
  validateCourse body = None -> In k course_fields -> is_Some (body !! k).
Proof.
  intros Hvalid Hk. destruct (body !! k) eqn:Hb; [eexists; reflexivity |].
  rewrite (missing_field_rejected body k Hk Hb) in Hvalid. discriminate.
Qed.

End ValidationFacts.

Lemma put_course_invalid (secret : string) (ts : value -> string)
    (ctx : Routes.context) (id : string) (body : object)
    (st : Storage.state) (user : object) (r : Types.response) :
  Middleware.authenticateToken secret (Routes.authorization ctx)
    (Routes.clockTimestamp ctx) = inr user ->
  Middleware.validateCourse body = Some r ->
  Routes.handle secret ts ctx (Routes.PUT_courses_id id body) st = (r, st).
Proof.
  intros Hauth Hbad. simpl.
  unfold Routes.put_courses_id, Routes.authenticated, Routes.validated.
  rewrite Hauth, Hbad. reflexivity.
Qed.

(** C1 as stated fails on the code: the title-only body holds a valid title
    and omits the five other fields; the update of the stored course "1"
    is answered 400 and stores nothing. *)
Lemma update_partial_payload_rejected :
  Middleware.not_text (get Scenario.title_only "title") = false /\
  (flip get "id" <$> Storage.getCourseById "1" (Storage.courses Storage.init))
    = Some (VStr "1") /\
  Scenario.run Scenario.as_user
    (Routes.PUT_courses_id "1" Scenario.title_only) Storage.init
  = (Types.failure 400
       "Description is required and must be a non-empty string, Category is required and must be a non-empty string, Level must be one of: beginner, intermediate, advanced, Duration must be a positive number, Published must be a boolean",
     Storage.init).
Proof.
  split; [by_running |]. split; [by_running |].
  apply (put_course_invalid _ _ _ _ _ _ Scenario.user_claims); by_running.
Qed.

(** C1, as amended.  The update validates all six fields, present or not.
    For every stored course (the first with the identifier is at position
    [i]) and every authenticated request: a body that passes
    [validateCourse] holds all six fields, is merged onto the stored
    record, [updatedAt] is set to the clock reading, and the merged course
    is stored in place and returned; a body that omits one of the six
    fields is answered 400 and nothing is stored. *)
Theorem update_validates_all_fields (secret : string) (ts : value -> string)
    (ctx : Routes.context) (id : string) (body : object)
    (st : Storage.state) (user : object) (i : nat) :
  id <> "" ->
  Middleware.authenticateToken secret (Routes.authorization ctx)
    (Routes.clockTimestamp ctx) = inr user ->
  Storage.findIndex (fun c => strict_eq (get c "id") (VStr id))
    (Storage.courses st) = Some i ->
  (Middleware.validateCourse body = None ->
   exists existing merged : object,
     Storage.courses st !! i = Some existing /\
     Routes.handle secret ts ctx (Routes.PUT_courses_id id body) st
       = (Types.mkResponse 200 true (Types.DObject merged)
            (Some "Course updated successfully") None,
          Storage.mkState (<[i := merged]> (Storage.courses st))
            (Storage.users st)) /\
     merged !! "updatedAt" = Some (VDate (Routes.now ctx 0%nat)) /\
     (forall k, In k Middleware.course_fields ->
        is_Some (body !! k) /\ merged !! k = body !! k) /\
     (forall k, k <> "updatedAt" -> body !! k = None ->
        merged !! k = existing !! k)) /\
  (forall k, In k Middleware.course_fields -> body !! k = None ->
   exists msg,
     Routes.handle secret ts ctx (Routes.PUT_courses_id id body) st
       = (Types.failure 400 msg, st)).
Proof.
  intros Hid Hauth Hidx.
  destruct (ArrayFacts.findIndex_Some _ _ _ Hidx) as (existing & Hex & _ & _).
  apply String.eqb_neq in Hid.
  split.
  - intros Hvalid.
    exists existing, (<["updatedAt" := VDate (Routes.now ctx 0%nat)]> (body ∪ existing)).
    split; [exact Hex |]. split; [| split; [| split]].
    + simpl. unfold Routes.put_courses_id, Routes.authenticated, Routes.validated.
      rewrite Hauth, Hvalid, Hid. unfold Storage.updateCourse.
      rewrite Hidx, Hex. reflexivity.
    + apply lookup_insert_eq.
    + intros k Hk.
      destruct (ValidationFacts.valid_has_fields body k Hvalid Hk) as [v Hv].
      split; [eexists; exact Hv |].
      rewrite lookup_insert_ne.
      * rewrite Hv. apply lookup_union_Some_l. exact Hv.
      * intros <-. simpl in Hk.
        repeat (destruct Hk as [Hk|Hk]; [discriminate |]). contradiction.
    + intros k Hk Hnone. rewrite lookup_insert_ne by congruence.
      apply lookup_union_r. exact Hnone.
  - intros k Hk Hnone. eexists.
    simpl. unfold Routes.put_courses_id, Routes.authenticated, Routes.validated.
    rewrite Hauth, (ValidationFacts.missing_field_rejected body k Hk Hnone).
    reflexivity.
Qed.

Lemma update_validates_all_fields_witness :
  (Middleware.validateCourse Scenario.course_T = None ->
   exists existing merged : object,
     Storage.courses Storage.init !! 0%nat = Some existing /\
     Scenario.run Scenario.as_user
       (Routes.PUT_courses_id "1" Scenario.course_T) Storage.init
       = (Types.mkResponse 200 true (Types.DObject merged)
            (Some "Course updated successfully") None,
          Storage.mkState (<[0%nat := merged]> (Storage.courses Storage.init))
            (Storage.users Storage.init)) /\
     merged !! "updatedAt" = Some (VDate 1700000060000) /\
     (forall k, In k Middleware.course_fields ->
        is_Some (Scenario.course_T !! k) /\
        merged !! k = Scenario.course_T !! k) /\
     (forall k, k <> "updatedAt" -> Scenario.course_T !! k = None ->
        merged !! k = existing !! k)) /\
  (forall k, In k Middleware.course_fields ->
   Scenario.course_T !! k = None ->
   exists msg,
     Scenario.run Scenario.as_user
       (Routes.PUT_courses_id "1" Scenario.course_T) Storage.init
       = (Types.failure 400 msg, Storage.init)).
Proof.
  apply (update_validates_all_fields Scenario.default_secret
           Scenario.to_string_stub Scenario.as_user "1" Scenario.course_T
           Storage.init Scenario.user_claims 0%nat).
  - discriminate.
  - vm_compute. reflexivity.
  - vm_compute. reflexivity.
Defined.

(** C4, run on the code: an accepted update whose body also carries [id]
    and [createdAt] replaces both in the stored course.  The course stored
    first has identifier "1" and its creation date before the request, and
    identifier "2" and the client's text as creation date after it. *)
Lemma update_overwrites_id_and_createdAt :
  let body :=
    <["id" := VStr "2"]> (<["createdAt" := VStr "1999-12-31"]> Scenario.course_T) in
  let before := Storage.courses Storage.init !! 0%nat in
  let result :=
    Scenario.run Scenario.as_user (Routes.PUT_courses_id "1" body) Storage.init in
  let after := Storage.courses (snd result) !! 0%nat in
  Types.status (fst result) = 200 /\
  (flip get "id" <$> before) = Some (VStr "1") /\
  (flip get "createdAt" <$> before) = Some (VDate 1705276800000) /\
  (flip get "id" <$> after) = Some (VStr "2") /\
  (flip get "createdAt" <$> after) = Some (VStr "1999-12-31") /\
  length (Storage.courses (snd result)) = length (Storage.courses Storage.init).
Proof. by_running. Qed.

(** C3, run on the code: two creations handled within the same millisecond
    get the same identifier.  After the first POST the collection holds,
    as its seventh course, one whose id is the text of the clock reading;
    the second POST, at the same reading, is answered 201 with a new
    course of that very id, stored as the eighth. *)
Lemma create_twice_same_millisecond_same_id :
  let first :=
    Scenario.run Scenario.as_user (Routes.POST_courses Scenario.course_T)
      Storage.init in
  let second :=
    Scenario.run Scenario.as_user (Routes.POST_courses Scenario.course_T)
      (snd first) in
  Types.status (fst first) = 201 /\ Types.status (fst second) = 201 /\
  (flip get "id" <$> Storage.courses (snd first) !! 6%nat)
    = Some (VStr "1700000060000") /\
  Scenario.response_field (fst second) "id" = Some (VStr "1700000060000") /\
  (flip get "id" <$> Storage.courses (snd second) !! 6%nat)
    = Some (VStr "1700000060000") /\
  (flip get "id" <$> Storage.courses (snd second) !! 7%nat)
    = Some (VStr "1700000060000") /\
  length (Storage.courses (snd second)) = 8%nat.
Proof. by_running. Qed.

(** ** The duration check *)

(** C5, run on the code: a body whose duration is 2.5, a positive number
    that is not whole, passes [validateCourse]; the creation is answered
    201, the update 200, and 2.5 is stored.  The course form of the client
    refuses the same duration. *)
Lemma fractional_duration_accepted :
  let create :=
    Scenario.run Scenario.as_user
      (Routes.POST_courses Scenario.course_half_hours) Storage.init in
  let update :=
    Scenario.run Scenario.as_user
      (Routes.PUT_courses_id "1" Scenario.course_half_hours) Storage.init in
  isInteger 2.5 = false /\
  Middleware.validateCourse Scenario.course_half_hours = None /\
  Types.status (fst create) = 201 /\
  (flip get "duration" <$> Storage.courses (snd create) !! 6%nat)
    = Some (VNum 2.5) /\
  Types.status (fst update) = 200 /\
  (flip get "duration" <$> Storage.courses (snd update) !! 0%nat)
    = Some (VNum 2.5) /\
  CourseForm.duration_error 2.5 = true.
Proof. by_running. Qed.

(** ** The profile *)

(** C2, run on the code: the profile is built from the decoded token, not
    from the stored user.  User "2" logs in and, thirty seconds later,
    reads the profile with the token received: the stored record holds the
    email and the login date, the returned object has no [email], its
    [lastLogin] is [undefined], and it carries the [iat] and [exp] of the
    token; [coursesCreated] is the count of the courses of user "2". *)
Lemma profile_is_token_payload :
  let login :=
    Scenario.run Scenario.anonymous
      (Routes.POST_auth_login Scenario.user_credentials) Storage.init in
  let stored := Storage.users (snd login) !! 1%nat in
  let profile :=
    fst (Scenario.run
           (Scenario.bearer (Scenario.response_token (fst login)) 1700000090)
           Routes.GET_profile (snd login)) in
  Types.status (fst login) = 200 /\
  (Storage.u_id <$> stored) = Some "2" /\
  (Storage.u_email <$> stored) = Some (VStr "user@example.com") /\
  (Storage.u_lastLogin <$> stored) = Some (VDate 1700000060000) /\
  Types.status profile = 200 /\
  Scenario.response_field profile "id" = Some (VStr "2") /\
  Scenario.response_field profile "username" = Some (VStr "user") /\
  Scenario.response_field profile "email" = None /\
  Scenario.response_field profile "lastLogin" = Some VUndefined /\
  Scenario.response_field profile "coursesCreated" = Some (VNum 0) /\
  Scenario.response_field profile "iat" = Some (VNum 1700000060) /\
  Scenario.response_field profile "exp" = Some (VNum 1700086460).
Proof. by_running. Qed.

(** ** The user collection *)

Module UserFacts.
Import Storage Types Middleware Routes Users.



Lemma strict_eq_VStr (s : string) (v : value) :
  strict_eq (VStr s) v = true -> v = VStr s.
Proof.
  destruct v; simpl; try discriminate.
  intros H. apply String.eqb_eq in H. congruence.
Qed.

Lemma alter_as_insert {A : Type} (f : A -> A) (i : nat) (l : list A) (x : A) :
  l !! i = Some x -> alter f i l = <[i := f x]> l.
Proof.
  revert i. induction l as [|y r IH]; intros [|i]; simpl; try discriminate.
  - intros [= ->]. reflexivity.
  - intros H. f_equal. apply IH. exact H.
Qed.

Lemma alter_out_of_range {A : Type} (f : A -> A) (i : nat) (l : list A) :
  l !! i = None -> alter f i l = l.
Proof.
  revert i. induction l as [|y r IH]; intros [|i]; simpl; try discriminate;
    try reflexivity.
  intros H. f_equal. apply IH. exact H.
Qed.




Section Handlers.
Variable JWT_SECRET : string.
Variable ToString_other : value -> string.

Lemma authenticated_snd (P : state -> Prop) (ctx : context) (st : state)
    (k : object -> response * state) :
  P st -> (forall user, P (snd (k user))) ->
  P (snd (authenticated JWT_SECRET ctx st k)).
Proof.
  intros Hst Hk. unfold authenticated.
  destruct (authenticateToken _ _ _); simpl; auto.
Qed.

Lemma validated_snd (P : state -> Prop) (body : object) (st : state)
    (k : response * state) :
  P st -> P (snd k) -> P (snd (validated body st k)).
Proof.
  intros Hst Hk. unfold validated.
  destruct (validateCourse body); simpl; auto.
Qed.





Lemma put_courses_id_users (ctx : context) (id : string) (body : object)
    (st : state) :
  users (snd (put_courses_id JWT_SECRET ctx id body st)) = users st.
Proof.
  unfold put_courses_id.
  apply (authenticated_snd (fun s => users s = users st)); [reflexivity |].
  intros _. apply (validated_snd (fun s => users s = users st)); [reflexivity |].
  destruct (String.eqb id ""); [reflexivity |].
  destruct (updateCourse _ _ _ _) as [[c|] cs]; reflexivity.
Qed.

Lemma delete_courses_id_users (ctx : context) (id : string) (st : state) :
  users (snd (delete_courses_id JWT_SECRET ctx id st)) = users st.
Proof.
  unfold delete_courses_id.
  apply (authenticated_snd (fun s => users s = users st)); [reflexivity |].
  intros _. destruct (String.eqb id ""); [reflexivity |].
  destruct (deleteCourse _ _) as [[|] cs]; reflexivity.
Qed.

Lemma post_courses_users (ctx : context) (body : object) (st : state) :
  users (snd (post_courses JWT_SECRET ctx body st)) = users st.
Proof.
  unfold post_courses.
  apply (authenticated_snd (fun s => users s = users st)); [reflexivity |].
  intros _. apply (validated_snd (fun s => users s = users st)); reflexivity.
Qed.







End Handlers.

End UserFacts.

Module UniqueFacts.
Import Users.



End UniqueFacts.




(** ** Login and the lifetime of the token *)



(** ** The embedding at work *)

Example trim_ex : trim "  a b  " = "a b". Proof. reflexivity. Qed.
Example isInteger_5 : isInteger 5%float = true. Proof. vm_compute. reflexivity. Qed.
Example isInteger_2_5 : isInteger 2.5%float = false. Proof. vm_compute. reflexivity. Qed.
Example number_of_Z_6 : number_of_Z 6 = 6%float. Proof. vm_compute. reflexivity. Qed.

Example emailRegex_ok : Routes.emailRegex_test "user@example.com" = true.
Proof. reflexivity. Qed.
Example emailRegex_no_tld : Routes.emailRegex_test "user@example" = false.
Proof. reflexivity. Qed.
Example emailRegex_space : Routes.emailRegex_test "us er@example.com" = false.
Proof. reflexivity. Qed.
Example emailRegex_two_ats : Routes.emailRegex_test "a@b@c.d" = false.
Proof. reflexivity. Qed.

Example login_scenario :
  Types.status (fst (Scenario.run Scenario.anonymous
    (Routes.POST_auth_login Scenario.user_credentials) Storage.init)) = 200.
Proof. by_running. Qed.

Example create_scenario :
  let result :=
    Scenario.run Scenario.as_user (Routes.POST_courses Scenario.course_T)
      Storage.init in
  Types.status (fst result) = 201 /\
  Scenario.response_field (fst result) "duration" = Some (VNum 5) /\
  Scenario.response_field (fst result) "id" = Some (VStr "1700000060000").
Proof. by_running. Qed.

Example update_unknown_scenario :
  fst (Scenario.run Scenario.as_user
         (Routes.PUT_courses_id "999" Scenario.course_T) Storage.init)
  = Types.failure 404 "Course not found".
Proof. by_running. Qed.

Example no_token_scenario :
  fst (Scenario.run Scenario.anonymous
         (Routes.POST_courses Scenario.course_T) Storage.init)
  = Types.failure 401 "Access token required".
Proof. by_running. Qed.

Example sort_by_duration :
  map CourseList.id
    (CourseList.sortedCourses (fun _ => 0%float) "duration" CourseList.desc
       [CourseList.mkCourse "a" "Zeta" "" "X" "beginner" 2.5 true "1" "" "";
        CourseList.mkCourse "b" "alpha" "" "Y" "advanced" 40 true "1" "" "";
        CourseList.mkCourse "c" "Beta" "" "Z" "beginner" 5 true "1" "" ""])
  = ["b"; "c"; "a"].
Proof. vm_compute. reflexivity. Qed.

Example sort_by_title :
  map CourseList.id
    (CourseList.sortedCourses (fun _ => 0%float) "title" CourseList.asc
       [CourseList.mkCourse "a" "Zeta" "" "X" "beginner" 2.5 true "1" "" "";
        CourseList.mkCourse "b" "alpha" "" "Y" "advanced" 40 true "1" "" "";
        CourseList.mkCourse "c" "Beta" "" "Z" "beginner" 5 true "1" "" ""])
  = ["b"; "c"; "a"].
Proof. vm_compute. reflexivity. Qed.

(** * Further properties of the code *)

(** ** Validation of a course body *)

Module TextFacts.
Import Notions.

Lemma trimStart_empty (s : string) : trimStart s = "" <-> blank s = true.
Proof.
  unfold blank. induction s as [|a r IH]; simpl.
  - split; reflexivity.
  - destruct (is_space a); simpl; [exact IH |].
    split; discriminate.
Qed.

Lemma blank_trimStart (s : string) : blank (trimStart s) = blank s.
Proof.
  unfold blank. induction s as [|a r IH]; simpl; [reflexivity |].
  destruct (is_space a) eqn:Ha; simpl; [exact IH |].
  rewrite Ha. reflexivity.
Qed.

Lemma blank_rev_app (s acc : string) :
  blank (String.rev_app s acc) = blank s && blank acc.
Proof.
  revert acc. unfold blank. induction s as [|a r IH]; intros acc; simpl.
  - reflexivity.
  - rewrite IH. simpl. destruct (is_space a); simpl.
    + reflexivity.
    + rewrite andb_false_r. reflexivity.
Qed.

Lemma blank_rev (s : string) : blank (String.rev s) = blank s.
Proof. unfold String.rev. rewrite blank_rev_app. apply andb_true_r. Qed.

Lemma rev_app_empty (s acc : string) :
  String.rev_app s acc = "" -> s = "" /\ acc = "".
Proof.
  revert acc. induction s as [|a r IH]; intros acc; simpl.
  - intros ->. split; reflexivity.
  - intros H. apply IH in H as [_ H]. discriminate.
Qed.

Lemma rev_empty (s : string) : String.rev s = "" <-> s = "".
Proof.
  split.
  - intros H. apply rev_app_empty in H as [H _]. exact H.
  - intros ->. reflexivity.
Qed.

Lemma trim_empty (s : string) : trim s = "" <-> blank s = true.
Proof.
  unfold trim. rewrite rev_empty, trimStart_empty, blank_rev, blank_trimStart.
  reflexivity.
Qed.

Lemma length_zero (s : string) : (String.length s =? 0)%nat = true <-> s = "".
Proof. destruct s; simpl; split; congruence. Qed.

End TextFacts.

(** X1.  A text field (title, description, category) passes the check of
    [validateCourse] exactly when it is a string with a character that is
    not white space: every value that is not a string, the empty string
    and every string of white space only are refused. *)
Theorem text_field_accepted_iff (v : value) :
  Middleware.not_text v = false <->
  exists s, v = VStr s /\ Notions.blank s = false.
Proof.
  unfold Middleware.not_text. split.
  - intros H. apply orb_false_elim in H as [H Htrim].
    apply orb_false_elim in H as [_ Htype].
    destruct v; try discriminate. exists s. split; [reflexivity |].
    simpl in Htrim. destruct (Notions.blank s) eqn:Hb; [| reflexivity].
    apply TextFacts.trim_empty in Hb. rewrite Hb in Htrim. discriminate.
  - intros (s & -> & Hb). simpl.
    assert (Hs : s <> "") by (intros ->; discriminate).
    apply String.eqb_neq in Hs. rewrite Hs. simpl.
    destruct (String.length (trim s) =? 0)%nat eqn:Hlen; [| reflexivity].
    apply TextFacts.length_zero, TextFacts.trim_empty in Hlen. congruence.
Qed.

Module ReportFacts.
Import Middleware.

Lemma push_if_In (b : bool) (m msg : string) (errors : list string) :
  In msg (push_if b m errors) <-> In msg errors \/ (b = true /\ msg = m).
Proof.
  destruct b; simpl.
  - rewrite in_app_iff. simpl. intuition congruence.
  - intuition congruence.
Qed.

Lemma push_if_nil (b : bool) (m : string) (errors : list string) :
  push_if b m errors = [] <-> b = false /\ errors = [].
Proof.
  destruct b; simpl.
  - split; [| intros [? _]; discriminate].
    intros H. apply app_eq_nil in H as [_ H]. discriminate.
  - intuition.
Qed.

End ReportFacts.

(** X2.  [validateCourse] lets a body through exactly when all six checks
    pass, and otherwise reports every violation at once: the array of
    errors holds the message of a check exactly when that check fails. *)
Theorem validateCourse_reports_every_violation (body : object) :
  (Middleware.validateCourse body = None <->
   Middleware.not_text (get body "title") = false /\
   Middleware.not_text (get body "description") = false /\
   Middleware.not_text (get body "category") = false /\
   Middleware.not_level (get body "level") = false /\
   Middleware.not_duration (get body "duration") = false /\
   Middleware.not_boolean (get body "published") = false) /\
  (forall msg, In msg (Middleware.course_errors body) <->
   (Middleware.not_text (get body "title") = true /\
      msg = "Title is required and must be a non-empty string") \/
   (Middleware.not_text (get body "description") = true /\
      msg = "Description is required and must be a non-empty string") \/
   (Middleware.not_text (get body "category") = true /\
      msg = "Category is required and must be a non-empty string") \/
   (Middleware.not_level (get body "level") = true /\
      msg = "Level must be one of: beginner, intermediate, advanced") \/
   (Middleware.not_duration (get body "duration") = true /\
      msg = "Duration must be a positive number") \/
   (Middleware.not_boolean (get body "published") = true /\
      msg = "Published must be a boolean")) /\
  (forall r, Middleware.validateCourse body = Some r ->
   r = Types.failure 400
         (String.concat ", " (Middleware.course_errors body))).
Proof.
  split; [| split].
  - unfold Middleware.validateCourse.
    destruct (Middleware.course_errors body) as [|e es] eqn:Herr; simpl.
    + split; [intros _ | reflexivity].
      unfold Middleware.course_errors in Herr.
      repeat (apply ReportFacts.push_if_nil in Herr as [? Herr]).
      repeat split; assumption.
    + split; [discriminate |].
      intros (H1 & H2 & H3 & H4 & H5 & H6).
      unfold Middleware.course_errors in Herr.
      rewrite H1, H2, H3, H4, H5, H6 in Herr. discriminate.
  - intros msg. unfold Middleware.course_errors.
    rewrite !ReportFacts.push_if_In. simpl. intuition.
  - intros r. unfold Middleware.validateCourse.
    destruct (0 <? length (Middleware.course_errors body))%nat;
      [intros [= <-]; reflexivity | discriminate].
Qed.

(** ** The guard *)

(** X3.  [authenticateToken] attaches a user only for a token that was
    signed under the secret of the server and has not expired, and what it
    attaches is the payload of that token with its [iat] and [exp]: the
    header must hold, as its second segment, such a token. *)
Theorem authenticateToken_accepts_iff (secret : string)
    (authHeader : option (list Jwt.token)) (clock : Z) (user : object) :
  Middleware.authenticateToken secret authHeader clock = inr user <->
  exists segments payload iat exp,
    authHeader = Some segments /\
    segments !! 1%nat = Some (Jwt.Signed secret payload iat exp) /\
    clock < exp /\
    user = Jwt.decoded payload iat exp.
Proof.
  unfold Middleware.authenticateToken. split.
  - destruct authHeader as [segments|]; simpl; [| discriminate].
    destruct (segments !! 1%nat) as [tok|] eqn:Hseg; simpl; [| discriminate].
    destruct (Jwt.token_truthy tok); simpl; [| discriminate].
    destruct tok as [raw|key payload iat exp]; simpl; [discriminate |].
    destruct (String.eqb_spec key secret) as [->|]; [| discriminate].
    destruct (Z.leb_spec exp clock); [discriminate |].
    intros [= <-]. exists segments, payload, iat, exp. auto.
  - intros (segments & payload & iat & exp & -> & Hseg & Hlt & ->).
    simpl. rewrite Hseg. simpl. rewrite String.eqb_refl.
    destruct (Z.leb_spec exp clock); [lia | reflexivity].
Qed.

(** X4.  The two refusals of the guard.  Without a header, without a
    second segment in it, or with an empty one, the answer is 401 "Access
    token required"; with a second segment that is not empty, the answer
    is 403 "Invalid or expired token" as soon as the segment is not a
    token, is signed under another secret, or is read at or after its
    expiry. *)
Theorem authenticateToken_refusals (secret : string)
    (authHeader : option (list Jwt.token)) (clock : Z) :
  ((authHeader = None \/
    (exists segments, authHeader = Some segments /\
       (segments !! 1%nat = None \/ segments !! 1%nat = Some (Jwt.Raw "")))) ->
   Middleware.authenticateToken secret authHeader clock
     = inl (Types.failure 401 "Access token required")) /\
  (forall segments tok,
     authHeader = Some segments -> segments !! 1%nat = Some tok ->
     Jwt.token_truthy tok = true ->
     (match tok with
      | Jwt.Raw _ => True
      | Jwt.Signed key _ _ exp => key <> secret \/ exp <= clock
      end) ->
     Middleware.authenticateToken secret authHeader clock
       = inl (Types.failure 403 "Invalid or expired token")).
Proof.
  unfold Middleware.authenticateToken. split.
  - intros [->|(segments & -> & [H|H])]; simpl; try rewrite H; reflexivity.
  - intros segments tok -> Hseg Htruthy Hbad. simpl. rewrite Hseg. simpl.
    rewrite Htruthy. simpl.
    destruct tok as [raw|key payload iat exp]; simpl; [reflexivity |].
    destruct (String.eqb_spec key secret) as [->|]; [| reflexivity].
    destruct Hbad as [Hbad|Hbad]; [congruence |].
    destruct (Z.leb_spec exp clock); [reflexivity | lia].
Qed.

Lemma authenticateToken_refusals_witness :
  Middleware.authenticateToken Scenario.default_secret
    (Some [Jwt.Raw "Bearer"; Scenario.user_token]) (1700000000 + 86400)
  = inl (Types.failure 403 "Invalid or expired token").
Proof.
  apply (proj2 (authenticateToken_refusals Scenario.default_secret
                  (Some [Jwt.Raw "Bearer"; Scenario.user_token])
                  (1700000000 + 86400))
           [Jwt.Raw "Bearer"; Scenario.user_token] Scenario.user_token).
  - reflexivity.
  - reflexivity.
  - reflexivity.
  - right. vm_compute. discriminate.
Defined.

(** ** What a request may change *)

Module FrameFacts.
Import Storage Types Middleware Routes Notions.

Section Handlers.
Variable JWT_SECRET : string.
Variable ToString_other : value -> string.

Lemma refused (ctx : context) (r : request) (st : state) (answer : response) :
  protected r = true ->
  authenticateToken JWT_SECRET (authorization ctx) (clockTimestamp ctx)
    = inl answer ->
  handle JWT_SECRET ToString_other ctx r st = (answer, st).
Proof.
  intros Hp Hauth.
  destruct r; try discriminate; simpl;
    unfold post_auth_logout, post_courses, put_courses_id, delete_courses_id,
      get_profile, put_profile, authenticated;
    rewrite Hauth; reflexivity.
Qed.

Lemma courses_frame (ctx : context) (r : request) (st : state) :
  match r with
  | POST_courses _ | PUT_courses_id _ _ | DELETE_courses_id _ => True
  | _ => courses (snd (handle JWT_SECRET ToString_other ctx r st)) = courses st
  end.
Proof.
  destruct r; simpl; try exact I.
  - unfold post_auth_login.
    destruct (negb (truthy _) || negb (truthy _)); [reflexivity |].
    destruct (findUserByUsername _ _); [| reflexivity].
    destruct (negb (strict_eq _ _)); reflexivity.
  - unfold post_auth_logout.
    apply (UserFacts.authenticated_snd JWT_SECRET
             (fun s => courses s = courses st)); reflexivity.
  - reflexivity.
  - unfold get_courses_id. destruct (String.eqb id ""); [reflexivity |].
    destruct (getCourseById _ _); reflexivity.
  - unfold get_profile.
    apply (UserFacts.authenticated_snd JWT_SECRET
             (fun s => courses s = courses st)); reflexivity.
  - unfold put_profile.
    apply (UserFacts.authenticated_snd JWT_SECRET
             (fun s => courses s = courses st)); [reflexivity |].
    intros user.
    destruct (negb (truthy _) || negb (truthy _)); [reflexivity |].
    destruct (negb (emailRegex_test _)); [reflexivity |].
    destruct (findIndex _ (users st)); [| reflexivity].
    destruct (List.find _ (users st)); [reflexivity |].
    destruct (users st !! n); reflexivity.
Qed.

Lemma users_frame (ctx : context) (r : request) (st : state) :
  match r with
  | POST_auth_login _ | PUT_profile _ => True
  | _ => users (snd (handle JWT_SECRET ToString_other ctx r st)) = users st
  end.
Proof.
  destruct r; simpl; try exact I.
  - unfold post_auth_logout.
    apply (UserFacts.authenticated_snd JWT_SECRET
             (fun s => users s = users st)); reflexivity.
  - reflexivity.
  - unfold get_courses_id. destruct (String.eqb id ""); [reflexivity |].
    destruct (getCourseById _ _); reflexivity.
  - apply UserFacts.post_courses_users.
  - apply UserFacts.put_courses_id_users.
  - apply UserFacts.delete_courses_id_users.
  - unfold get_profile.
    apply (UserFacts.authenticated_snd JWT_SECRET
             (fun s => users s = users st)); reflexivity.
Qed.

End Handlers.

End FrameFacts.

(** X5.  A request to a protected route that the guard refuses is
    answered by the guard alone and changes nothing: the response is the
    401 or 403 of [authenticateToken] and the state is the state before. *)
Theorem refused_request_changes_nothing (secret : string)
    (ts : value -> string) (ctx : Routes.context) (r : Routes.request)
    (st : Storage.state) (answer : Types.response) :
  Notions.protected r = true ->
  Middleware.authenticateToken secret (Routes.authorization ctx)
    (Routes.clockTimestamp ctx) = inl answer ->
  Routes.handle secret ts ctx r st = (answer, st).
Proof. apply FrameFacts.refused. Qed.

Lemma refused_request_changes_nothing_witness :
  Scenario.run Scenario.anonymous (Routes.DELETE_courses_id "1") Storage.init
  = (Types.failure 401 "Access token required", Storage.init).
Proof.
  apply (refused_request_changes_nothing Scenario.default_secret
           Scenario.to_string_stub Scenario.anonymous
           (Routes.DELETE_courses_id "1") Storage.init).
  - reflexivity.
  - reflexivity.
Defined.

(** X6.  Logging out revokes nothing: whether or not the logout request
    was authenticated, the state after it is the state before it, so every
    later request, with the same token or any other, is handled exactly as
    if the logout had not taken place. *)
Theorem logout_revokes_nothing (secret : string) (ts : value -> string)
    (ctx ctx' : Routes.context) (r : Routes.request) (st : Storage.state) :
  snd (Routes.handle secret ts ctx Routes.POST_auth_logout st) = st /\
  Routes.handle secret ts ctx' r
    (snd (Routes.handle secret ts ctx Routes.POST_auth_logout st))
  = Routes.handle secret ts ctx' r st.
Proof.
  assert (H : snd (Routes.handle secret ts ctx Routes.POST_auth_logout st) = st).
  { simpl. unfold Routes.post_auth_logout.
    apply (UserFacts.authenticated_snd secret (fun s => s = st)); reflexivity. }
  split; [exact H | rewrite H; reflexivity].
Qed.

(** X7.  Only the three course mutations can change the course
    collection, and only login and the profile update can change the user
    collection: every other request returns the collection as it was. *)
Theorem request_frame (secret : string) (ts : value -> string)
    (ctx : Routes.context) (r : Routes.request) (st : Storage.state) :
  match r with
  | Routes.POST_courses _ | Routes.PUT_courses_id _ _
  | Routes.DELETE_courses_id _ => True
  | _ => Storage.courses (snd (Routes.handle secret ts ctx r st))
         = Storage.courses st
  end /\
  match r with
  | Routes.POST_auth_login _ | Routes.PUT_profile _ => True
  | _ => Storage.users (snd (Routes.handle secret ts ctx r st))
         = Storage.users st
  end.
Proof.
  split; [apply FrameFacts.courses_frame | apply FrameFacts.users_frame].
Qed.

(** ** Users are neither added nor removed *)

Module AccountFacts.
Import Storage Types Middleware Routes.

(** What never changes in a user record. *)
Definition account (u : User) : string * string := (u_id u, u_password u).

Lemma account_insert (us : list User) (i : nat) (old new : User) :
  us !! i = Some old -> account new = account old ->
  account <$> <[i := new]> us = account <$> us.
Proof.
  intros Hold Hacc. rewrite list_fmap_insert. apply list_insert_id.
  rewrite list_lookup_fmap, Hold. simpl. congruence.
Qed.

Lemma account_alter (f : User -> User) (us : list User) (i : nat) :
  (forall u, account (f u) = account u) ->
  account <$> alter f i us = account <$> us.
Proof.
  intros Hf. destruct (us !! i) as [old|] eqn:Hold.
  - rewrite (UserFacts.alter_as_insert _ _ _ _ Hold).
    apply (account_insert us i old); [assumption | apply Hf].
  - rewrite (UserFacts.alter_out_of_range _ _ _ Hold). reflexivity.
Qed.

Section Handlers.
Variable JWT_SECRET : string.
Variable ToString_other : value -> string.

Lemma handle_accounts (ctx : context) (r : request) (st : state) :
  account <$> users (snd (handle JWT_SECRET ToString_other ctx r st))
  = account <$> users st.
Proof.
  pose proof (FrameFacts.users_frame JWT_SECRET ToString_other ctx r st) as Hf.
  destruct r; try (rewrite Hf; reflexivity); simpl.
  - unfold post_auth_login.
    destruct (negb (truthy _) || negb (truthy _)); [reflexivity |].
    destruct (findUserByUsername _ _); [| reflexivity].
    destruct (negb (strict_eq _ _)); [reflexivity |].
    simpl. destruct (findIndex _ (users st)); [| reflexivity].
    apply account_alter. reflexivity.
  - unfold put_profile.
    apply (UserFacts.authenticated_snd JWT_SECRET
             (fun s => account <$> users s = account <$> users st));
      [reflexivity |].
    intros user.
    destruct (negb (truthy _) || negb (truthy _)); [reflexivity |].
    destruct (negb (emailRegex_test _)); [reflexivity |].
    destruct (findIndex _ (users st)) as [i|]; [| reflexivity].
    destruct (List.find _ (users st)); [reflexivity |].
    destruct (users st !! i) as [old|] eqn:Hold; [| reflexivity].
    simpl. apply (account_insert (users st) i old); [assumption | reflexivity].
Qed.

End Handlers.

End AccountFacts.

(** X8.  No request adds or removes a user, reorders the users, or
    changes the id or the password of a user: after any request the list
    of (id, password) pairs is the list before it. *)
Theorem accounts_are_fixed (secret : string) (ts : value -> string)
    (ctx : Routes.context) (r : Routes.request) (st : Storage.state) :
  (fun u => (Storage.u_id u, Storage.u_password u))
    <$> Storage.users (snd (Routes.handle secret ts ctx r st))
  = (fun u => (Storage.u_id u, Storage.u_password u)) <$> Storage.users st.
Proof. apply AccountFacts.handle_accounts. Qed.

(** ** The course collection *)

Module CourseFacts.
Import Storage.

Lemma find_app_l {A : Type} (p : A -> bool) (l r : list A) (x : A) :
  List.find p l = Some x -> List.find p (l ++ r)%list = Some x.
Proof.
  induction l as [|y l IH]; simpl; [discriminate |].
  destruct (p y); [trivial | exact IH].
Qed.

Lemma find_app_r {A : Type} (p : A -> bool) (l r : list A) :
  Forall (fun y => p y = false) l ->
  List.find p (l ++ r)%list = List.find p r.
Proof.
  induction 1 as [|y l Hy _ IH]; simpl; [reflexivity |].
  rewrite Hy. exact IH.
Qed.

(** The first element satisfying [p] is what [find] returns. *)
Lemma find_first {A : Type} (p : A -> bool) (l : list A) (i : nat) (x : A) :
  l !! i = Some x -> p x = true ->
  (forall j y, (j < i)%nat -> l !! j = Some y -> p y = false) ->
  List.find p l = Some x.
Proof.
  revert i. induction l as [|y l IH]; intros [|i]; simpl; try discriminate.
  - intros [= ->] Hp _. rewrite Hp. reflexivity.
  - intros Hx Hp Hbefore.
    rewrite (Hbefore 0%nat y); [| lia | reflexivity].
    apply (IH i); try assumption.
    intros j z Hj Hz. apply (Hbefore (S j) z); [lia | exact Hz].
Qed.

Lemma find_delete {A : Type} (p : A -> bool) (l : list A) (i : nat) (x : A) :
  l !! i = Some x -> p x = false ->
  List.find p (delete i l) = List.find p l.
Proof.
  revert i. induction l as [|y l IH]; intros [|i]; simpl; try discriminate.
  - intros [= ->] Hp. rewrite Hp. reflexivity.
  - intros Hx Hp. change (delete (S i) (y :: l)) with (y :: delete i l).
    simpl. destruct (p y); [reflexivity |]. apply (IH i); assumption.
Qed.

Lemma find_insert_other {A : Type} (p : A -> bool) (l : list A) (i : nat)
    (x new : A) :
  l !! i = Some x -> p x = false -> p new = false ->
  List.find p (<[i := new]> l) = List.find p l.
Proof.
  revert i. induction l as [|y l IH]; intros [|i]; simpl; try discriminate.
  - intros [= ->] Hp Hn. rewrite Hp, Hn. reflexivity.
  - intros Hx Hp Hn. destruct (p y); [reflexivity |]. apply (IH i); assumption.
Qed.

(** A course with identifier [id] does not answer to another one. *)
Lemma other_id (c : object) (id id' : string) :
  strict_eq (get c "id") (VStr id) = true -> id' <> id ->
  strict_eq (get c "id") (VStr id') = false.
Proof.
  intros H Hne. rewrite strict_eq_sym in H.
  apply UserFacts.strict_eq_VStr in H. rewrite H. simpl.
  apply String.eqb_neq. congruence.
Qed.

End CourseFacts.

(** X9.  Create then read.  When no stored course has the identifier
    generated for the new course, looking that identifier up after
    [addCourse] returns the new course.  In every case the courses stored
    before are still found under their identifiers, before the new one. *)
Theorem addCourse_then_getCourseById (course : object) (tid tc tu : Z)
    (cs : list object) :
  (Forall (fun c => strict_eq (get c "id") (VStr (pretty tid)) = false) cs ->
   Storage.getCourseById (pretty tid)
     (snd (Storage.addCourse course tid tc tu cs))
   = Some (fst (Storage.addCourse course tid tc tu cs))) /\
  (forall id c, Storage.getCourseById id cs = Some c ->
   Storage.getCourseById id (snd (Storage.addCourse course tid tc tu cs))
   = Some c) /\
  length (snd (Storage.addCourse course tid tc tu cs)) = S (length cs).
Proof.
  unfold Storage.addCourse, Storage.getCourseById. simpl. split; [| split].
  - intros Hfresh. rewrite (CourseFacts.find_app_r _ _ _ Hfresh). simpl.
    unfold get. rewrite !lookup_insert_ne by discriminate.
    rewrite lookup_insert_eq. simpl. rewrite String.eqb_refl. reflexivity.
  - intros id c. apply CourseFacts.find_app_l.
  - rewrite length_app. simpl. lia.
Qed.

Lemma addCourse_then_getCourseById_witness :
  Storage.getCourseById "1700000060000"
    (snd (Storage.addCourse Scenario.course_T 1700000060000 1700000060000
            1700000060000 Storage.seed_courses))
  = Some (fst (Storage.addCourse Scenario.course_T 1700000060000
                 1700000060000 1700000060000 Storage.seed_courses)).
Proof.
  apply (proj1 (addCourse_then_getCourseById Scenario.course_T 1700000060000
                  1700000060000 1700000060000 Storage.seed_courses)).
  repeat constructor.
Defined.

(** X10.  Updating a course that does not exist.  For every authenticated
    PUT whose body passes validation and whose identifier no stored course
    has, the answer is 404 "Course not found" and the state is unchanged. *)
Theorem update_unknown_course (secret : string) (ts : value -> string)
    (ctx : Routes.context) (id : string) (body : object)
    (st : Storage.state) (user : object) :
  id <> "" ->
  Middleware.authenticateToken secret (Routes.authorization ctx)
    (Routes.clockTimestamp ctx) = inr user ->
  Middleware.validateCourse body = None ->
  Forall (fun c => strict_eq (get c "id") (VStr id) = false)
    (Storage.courses st) ->
  Routes.handle secret ts ctx (Routes.PUT_courses_id id body) st
    = (Types.failure 404 "Course not found", st).
Proof.
  intros Hid Hauth Hvalid Hnone.
  apply ArrayFacts.findIndex_None in Hnone.
  simpl. unfold Routes.put_courses_id, Routes.authenticated, Routes.validated.
  rewrite Hauth, Hvalid. apply String.eqb_neq in Hid. rewrite Hid.
  unfold Storage.updateCourse. rewrite Hnone. reflexivity.
Qed.

Lemma update_unknown_course_witness :
  Scenario.run Scenario.as_user
    (Routes.PUT_courses_id "999" Scenario.course_T) Storage.init
  = (Types.failure 404 "Course not found", Storage.init).
Proof.
  apply (update_unknown_course Scenario.default_secret Scenario.to_string_stub
           Scenario.as_user "999" Scenario.course_T Storage.init
           Scenario.user_claims).
  - discriminate.
  - vm_compute. reflexivity.
  - vm_compute. reflexivity.
  - repeat constructor.
Defined.

(** X11.  Update then read.  When the first course with identifier [id] is
    at position [i], holding the course [existing], and the updates carry
    no [id] key, [updateCourse] returns and stores at position [i] the
    course [existing] overlaid with the updates and with [updatedAt] set
    to the clock reading: every key of the updates other than [updatedAt]
    has the value of the updates, every other key but [updatedAt] the
    value it had.  The length of the collection and every other position
    are kept, and a lookup of [id] afterwards returns that course. *)
Theorem updateCourse_then_getCourseById (id : string) (updates : object)
    (now : Z) (cs : list object) (i : nat) :
  Storage.findIndex (fun c => strict_eq (get c "id") (VStr id)) cs = Some i ->
  updates !! "id" = None ->
  exists existing,
    cs !! i = Some existing /\
    let merged := <["updatedAt" := VDate now]> (updates ∪ existing) in
    Storage.updateCourse id updates now cs
      = (Some merged, <[i := merged]> cs) /\
    merged !! "updatedAt" = Some (VDate now) /\
    (forall k v, k <> "updatedAt" -> updates !! k = Some v ->
       merged !! k = Some v) /\
    (forall k, k <> "updatedAt" -> updates !! k = None ->
       merged !! k = existing !! k) /\
    <[i := merged]> cs !! i = Some merged /\
    length (<[i := merged]> cs) = length cs /\
    (forall j, j <> i -> <[i := merged]> cs !! j = cs !! j) /\
    Storage.getCourseById id (<[i := merged]> cs) = Some merged.
Proof.
  intros Hidx Hnoid.
  destruct (ArrayFacts.findIndex_Some _ _ _ Hidx) as (existing & Hex & Hp & Hbefore).
  pose proof (lookup_lt_Some _ _ _ Hex) as Hlt.
  exists existing. split; [exact Hex |]. cbv zeta.
  split; [| split; [| split; [| split; [| split; [| split; [| split]]]]]].
  - unfold Storage.updateCourse. rewrite Hidx, Hex. reflexivity.
  - apply lookup_insert_eq.
  - intros k v Hk Hv. rewrite lookup_insert_ne by congruence.
    apply lookup_union_Some_l. exact Hv.
  - intros k Hk Hnone. rewrite lookup_insert_ne by congruence.
    apply lookup_union_r. exact Hnone.
  - apply list_lookup_insert_eq. exact Hlt.
  - apply length_insert.
  - intros j Hj. apply list_lookup_insert_ne. congruence.
  - unfold Storage.getCourseById.
    apply (CourseFacts.find_first _ _ i).
    + apply list_lookup_insert_eq. exact Hlt.
    + unfold get. rewrite lookup_insert_ne by discriminate.
      rewrite (lookup_union_r _ _ _ Hnoid). exact Hp.
    + intros j y Hj Hy. rewrite list_lookup_insert_ne in Hy by lia.
      apply (Hbefore j y Hj Hy).
Qed.

Lemma updateCourse_then_getCourseById_witness :
  exists existing,
    Storage.seed_courses !! 1%nat = Some existing /\
    let merged :=
      <["updatedAt" := VDate 1700000060000]> (Scenario.course_T ∪ existing) in
    Storage.updateCourse "2" Scenario.course_T 1700000060000
      Storage.seed_courses
      = (Some merged, <[1%nat := merged]> Storage.seed_courses) /\
    merged !! "updatedAt" = Some (VDate 1700000060000) /\
    (forall k v, k <> "updatedAt" -> Scenario.course_T !! k = Some v ->
       merged !! k = Some v) /\
    (forall k, k <> "updatedAt" -> Scenario.course_T !! k = None ->
       merged !! k = existing !! k) /\
    <[1%nat := merged]> Storage.seed_courses !! 1%nat = Some merged /\
    length (<[1%nat := merged]> Storage.seed_courses)
      = length Storage.seed_courses /\
    (forall j, j <> 1%nat ->
       <[1%nat := merged]> Storage.seed_courses !! j
       = Storage.seed_courses !! j) /\
    Storage.getCourseById "2" (<[1%nat := merged]> Storage.seed_courses)
      = Some merged.
Proof.
  apply (updateCourse_then_getCourseById "2" Scenario.course_T 1700000060000
           Storage.seed_courses 1%nat).
  - vm_compute. reflexivity.
  - vm_compute. reflexivity.
Defined.

(** X12.  Deleting a stored course.  When the first course with identifier
    [id] is at position [i], the authenticated DELETE answers 200 "Course
    deleted successfully" and removes exactly that position: the collection
    is one shorter, and the lookup of every other identifier gives what it
    gave before. *)
Theorem delete_stored_course (secret : string) (ts : value -> string)
    (ctx : Routes.context) (id : string) (st : Storage.state)
    (user : object) (i : nat) :
  id <> "" ->
  Middleware.authenticateToken secret (Routes.authorization ctx)
    (Routes.clockTimestamp ctx) = inr user ->
  Storage.findIndex (fun c => strict_eq (get c "id") (VStr id))
    (Storage.courses st) = Some i ->
  Routes.handle secret ts ctx (Routes.DELETE_courses_id id) st
    = (Types.mkResponse 200 true
         (Routes.message_data "Course deleted successfully") None None,
       Storage.mkState (delete i (Storage.courses st)) (Storage.users st)) /\
  S (length (delete i (Storage.courses st))) = length (Storage.courses st) /\
  forall id', id' <> id ->
    Storage.getCourseById id' (delete i (Storage.courses st))
    = Storage.getCourseById id' (Storage.courses st).
Proof.
  intros Hid Hauth Hidx.
  destruct (ArrayFacts.findIndex_Some _ _ _ Hidx) as (c & Hc & Hp & _).
  split; [| split].
  - simpl. unfold Routes.delete_courses_id, Routes.authenticated.
    rewrite Hauth. apply String.eqb_neq in Hid. rewrite Hid.
    unfold Storage.deleteCourse. rewrite Hidx. reflexivity.
  - rewrite length_delete by (eexists; exact Hc).
    pose proof (lookup_lt_Some _ _ _ Hc). lia.
  - intros id' Hne. unfold Storage.getCourseById.
    apply (CourseFacts.find_delete _ _ i c Hc).
    apply (CourseFacts.other_id c id id' Hp Hne).
Qed.

Lemma delete_stored_course_witness :
  Scenario.run Scenario.as_user (Routes.DELETE_courses_id "3") Storage.init
    = (Types.mkResponse 200 true
         (Routes.message_data "Course deleted successfully") None None,
       Storage.mkState (delete 2%nat Storage.seed_courses) Storage.seed_users) /\
  S (length (delete 2%nat Storage.seed_courses)) = length Storage.seed_courses /\
  forall id', id' <> "3" ->
    Storage.getCourseById id' (delete 2%nat Storage.seed_courses)
    = Storage.getCourseById id' Storage.seed_courses.
Proof.
  apply (delete_stored_course Scenario.default_secret Scenario.to_string_stub
           Scenario.as_user "3" Storage.init Scenario.user_claims 2%nat).
  - discriminate.
  - vm_compute. reflexivity.
  - vm_compute. reflexivity.
Defined.

(** ** Who may change a course *)

(** X13.  The course mutations do not look at who is authenticated.  Two
    requests for the same creation, update or deletion that both pass the
    guard, as whichever users, and read the same clock, get the same
    response and leave the same state: a user changes the courses of
    another user exactly as their own. *)
Theorem course_mutation_ignores_identity (secret : string)
    (ts : value -> string) (ctx1 ctx2 : Routes.context) (r : Routes.request)
    (st : Storage.state) (user1 user2 : object) :
  Middleware.authenticateToken secret (Routes.authorization ctx1)
    (Routes.clockTimestamp ctx1) = inr user1 ->
  Middleware.authenticateToken secret (Routes.authorization ctx2)
    (Routes.clockTimestamp ctx2) = inr user2 ->
  (forall n, Routes.now ctx1 n = Routes.now ctx2 n) ->
  match r with
  | Routes.POST_courses _ | Routes.PUT_courses_id _ _
  | Routes.DELETE_courses_id _ =>
      Routes.handle secret ts ctx1 r st = Routes.handle secret ts ctx2 r st
  | _ => True
  end.
Proof.
  intros H1 H2 Hnow. destruct r; try exact I; simpl;
    unfold Routes.post_courses, Routes.put_courses_id,
      Routes.delete_courses_id, Routes.authenticated;
    rewrite H1, H2, ?Hnow; reflexivity.
Qed.

Lemma course_mutation_ignores_identity_witness :
  Scenario.run Scenario.as_user (Routes.DELETE_courses_id "1") Storage.init
  = Scenario.run
      (Scenario.bearer
         (Some (Middleware.generateToken Scenario.default_secret
                  (<["id" := VStr "1"]> (<["username" := VStr "admin"]> ∅))
                  1700000000))
         1700000060)
      (Routes.DELETE_courses_id "1") Storage.init.
Proof.
  apply (course_mutation_ignores_identity Scenario.default_secret
           Scenario.to_string_stub Scenario.as_user
           (Scenario.bearer
              (Some (Middleware.generateToken Scenario.default_secret
                       (<["id" := VStr "1"]> (<["username" := VStr "admin"]> ∅))
                       1700000000))
              1700000060)
           (Routes.DELETE_courses_id "1") Storage.init
           Scenario.user_claims
           (Jwt.decoded (<["id" := VStr "1"]> (<["username" := VStr "admin"]> ∅))
              1700000000 (1700000000 + Middleware.expiresIn))).
  - vm_compute. reflexivity.
  - vm_compute. reflexivity.
  - intros n. reflexivity.
Defined.

(** ** Login *)

Module LoginFacts.
Import Storage Types Middleware Routes.

(** What login leaves alone in a user record. *)
Definition identity (u : User) : string * value * value * string :=
  (u_id u, u_username u, u_email u, u_password u).

Lemma identity_alter (d : value) (us : list User) (i : nat) :
  identity <$> alter (set_lastLogin d) i us = identity <$> us.
Proof.
  destruct (us !! i) as [old|] eqn:Hold.
  - rewrite (UserFacts.alter_as_insert _ _ _ _ Hold).
    rewrite list_fmap_insert. apply list_insert_id.
    rewrite list_lookup_fmap, Hold. reflexivity.
  - rewrite (UserFacts.alter_out_of_range _ _ _ Hold). reflexivity.
Qed.

End LoginFacts.

(** X14.  A login request, whatever its body, leaves the courses alone and
    changes no user's id, username, email or password (only a login date
    can change); it is answered 200, 400 or 401, and when the answer is
    not 200 the state is unchanged. *)
Theorem login_only_stamps_the_date (secret : string) (ts : value -> string)
    (ctx : Routes.context) (body : object) (st : Storage.state) :
  let result := Routes.handle secret ts ctx (Routes.POST_auth_login body) st in
  Storage.courses (snd result) = Storage.courses st /\
  (fun u => (Storage.u_id u, Storage.u_username u, Storage.u_email u,
             Storage.u_password u)) <$> Storage.users (snd result)
  = (fun u => (Storage.u_id u, Storage.u_username u, Storage.u_email u,
               Storage.u_password u)) <$> Storage.users st /\
  (Types.status (fst result) = 200 \/
   (Types.status (fst result) = 400 /\ snd result = st) \/
   (Types.status (fst result) = 401 /\ snd result = st)).
Proof.
  cbv zeta.
  change (Routes.handle secret ts ctx (Routes.POST_auth_login body) st)
    with (Routes.post_auth_login secret ctx body st).
  unfold Routes.post_auth_login. cbv zeta.
  destruct (negb (truthy _) || negb (truthy _)); [simpl; auto 10 |].
  destruct (Storage.findUserByUsername _ _); [| simpl; auto 10].
  destruct (negb (strict_eq _ _)); [simpl; auto 10 |].
  simpl. split; [reflexivity |]. split; [| auto].
  destruct (Storage.findIndex _ (Storage.users st)); [| reflexivity].
  apply LoginFacts.identity_alter.
Qed.

(** X15.  What a successful login hands out holds no password: the user
    object of the response has exactly the keys [id], [username], [email]
    and [lastLogin], and the payload of the token exactly [id] and
    [username]; the token is signed under the secret of the server and
    expires 24 hours after the clock reading of the login. *)
Theorem login_discloses_no_password (secret : string) (ts : value -> string)
    (ctx : Routes.context) (body : object) (st : Storage.state)
    (tok : Jwt.token) (profile : object) :
  Types.r_data (fst (Routes.handle secret ts ctx (Routes.POST_auth_login body) st))
    = Types.DAuth tok profile ->
  dom profile = {["id"; "username"; "email"; "lastLogin"]} /\
  exists payload,
    tok = Jwt.Signed secret payload (Routes.clockTimestamp ctx)
            (Routes.clockTimestamp ctx + 86400) /\
    dom payload = {["id"; "username"]}.
Proof.
  change (Routes.handle secret ts ctx (Routes.POST_auth_login body) st)
    with (Routes.post_auth_login secret ctx body st).
  unfold Routes.post_auth_login. cbv zeta.
  destruct (negb (truthy _) || negb (truthy _)); [discriminate |].
  destruct (Storage.findUserByUsername _ _) as [user|]; [| discriminate].
  destruct (negb (strict_eq _ _)); [discriminate |].
  simpl. intros [= <- <-]. split.
  - unfold Routes.user_json. rewrite !dom_insert_L, dom_empty_L.
    set_solver.
  - eexists. split; [reflexivity |].
    rewrite !dom_insert_L, dom_empty_L. set_solver.
Qed.

Lemma login_discloses_no_password_witness :
  exists (tok : Jwt.token) (profile : object),
    Types.r_data (fst (Scenario.run Scenario.anonymous
      (Routes.POST_auth_login Scenario.user_credentials) Storage.init))
      = Types.DAuth tok profile /\
    dom profile = {["id"; "username"; "email"; "lastLogin"]} /\
    exists payload,
      tok = Jwt.Signed Scenario.default_secret payload 1700000060
              (1700000060 + 86400) /\
      dom payload = {["id"; "username"]}.
Proof.
  eexists _, _. split; [vm_compute; reflexivity |].
  apply (login_discloses_no_password Scenario.default_secret
           Scenario.to_string_stub Scenario.anonymous
           Scenario.user_credentials Storage.init).
  vm_compute. reflexivity.
Defined.

(** ** The profile update *)

Module EmailFacts.
Import Routes.

Lemma email_local_app (a : list ascii) (x : ascii) (rest : list ascii) :
  forallb email_char a = true -> email_char x = false ->
  email_local (a ++ x :: rest) = (a, x :: rest).
Proof.
  intros Ha Hx. induction a as [|y a IH]; simpl.
  - rewrite Hx. reflexivity.
  - simpl in Ha. apply andb_prop in Ha as [Hy Ha].
    rewrite Hy, (IH Ha). reflexivity.
Qed.

Lemma email_local_split (l loc rest : list ascii) :
  email_local l = (loc, rest) ->
  l = (loc ++ rest)%list /\ forallb email_char loc = true.
Proof.
  revert loc rest. induction l as [|y l IH]; intros loc rest; simpl.
  - intros [= <- <-]. split; reflexivity.
  - destruct (email_char y) eqn:Hy.
    + destruct (email_local l) as [p q]. intros [= <- <-].
      destruct (IH p q eq_refl) as [-> Hp]. simpl. rewrite Hy, Hp.
      split; reflexivity.
    + intros [= <- <-]. split; reflexivity.
Qed.

Lemma inner_dot_split (d : list ascii) :
  inner_dot d = true <->
  exists b c, d = (b ++ "."%char :: c)%list /\ b <> [] /\ c <> [].
Proof.
  split.
  - induction d as [|x d IH]; [discriminate |].
    destruct d as [|y [|z r]]; try discriminate.
    change (inner_dot (x :: y :: z :: r))
      with (Ascii.eqb y "." || inner_dot (y :: z :: r)).
    intros H. apply orb_prop in H as [H|H].
    + apply Ascii.eqb_eq in H. subst y.
      exists [x], (z :: r). repeat split; discriminate.
    + destruct (IH H) as (b & c & Hd & Hb & Hc).
      exists (x :: b), c. rewrite Hd. repeat split; [discriminate | exact Hc].
  - intros (b & c & -> & Hb & Hc).
    induction b as [|x b IH]; [congruence |].
    destruct b as [|y b].
    + destruct c as [|z c]; [congruence |]. reflexivity.
    + assert (Hrec : inner_dot ((y :: b) ++ "."%char :: c) = true)
        by (apply IH; discriminate).
      change ((x :: y :: b) ++ "."%char :: c)%list
        with (x :: y :: (b ++ "."%char :: c))%list.
      change ((y :: b) ++ "."%char :: c)%list
        with (y :: (b ++ "."%char :: c))%list in Hrec.
      destruct (b ++ "."%char :: c)%list as [|w t] eqn:E;
        [destruct b; discriminate |].
      change (inner_dot (x :: y :: w :: t))
        with (Ascii.eqb y "." || inner_dot (y :: w :: t)).
      rewrite Hrec. apply orb_true_r.
Qed.

End EmailFacts.

(** X16.  The test of the email pattern is the pattern: a string passes
    exactly when it reads [a@b.c] with [a], [b] and [c] not empty and free
    of white space and of ["@"].  So an accepted email holds one ["@"]
    only, no white space, and a dot inside what follows the ["@"]. *)
Theorem emailRegex_test_iff (s : string) :
  Routes.emailRegex_test s = true <->
  exists a b c : list ascii,
    list_ascii_of_string s = (a ++ "@"%char :: b ++ "."%char :: c)%list /\
    a <> [] /\ b <> [] /\ c <> [] /\
    forallb Routes.email_char a = true /\
    forallb Routes.email_char b = true /\
    forallb Routes.email_char c = true.
Proof.
  unfold Routes.emailRegex_test. split.
  - destruct (Routes.email_local (list_ascii_of_string s)) as [loc rest] eqn:Hsplit.
    apply EmailFacts.email_local_split in Hsplit as [Hl Hloc].
    destruct rest as [|x domain]; [discriminate |].
    intros H. apply andb_prop in H as [H Hdot].
    apply andb_prop in H as [H Hdomain]. apply andb_prop in H as [Hat Hlen].
    apply Ascii.eqb_eq in Hat. subst x.
    apply EmailFacts.inner_dot_split in Hdot as (b & c & -> & Hb & Hc).
    rewrite forallb_app in Hdomain. apply andb_prop in Hdomain as [Hfb Hfc].
    simpl in Hfc. exists loc, b, c. repeat split; try assumption.
    intros ->. discriminate.
  - intros (a & b & c & -> & Ha & Hb & Hc & Hfa & Hfb & Hfc).
    rewrite (EmailFacts.email_local_app a "@" _ Hfa eq_refl).
    rewrite Ascii.eqb_refl. simpl.
    destruct a; [congruence |]. simpl.
    rewrite forallb_app, Hfb. simpl. rewrite Hfc. simpl.
    apply EmailFacts.inner_dot_split. exists b, c. auto.
Qed.

Module ProfileFacts.
Import Storage Types Middleware Routes.

Section Handlers.
Variable JWT_SECRET : string.
Variable ToString_other : value -> string.


End Handlers.

End ProfileFacts.



(** ** The filtered view *)

Module FilterFacts.
Import CourseList CourseFilter.

Lemma filter_filter_comm {A : Type} (p q : A -> bool) (l : list A) :
  List.filter p (List.filter q l) = List.filter q (List.filter p l).
Proof.
  induction l as [|x l IH]; simpl; [reflexivity |].
  destruct (p x) eqn:Hp, (q x) eqn:Hq; simpl;
    rewrite ?Hp, ?Hq, IH; reflexivity.
Qed.

Lemma filter_andb {A : Type} (p q : A -> bool) (l : list A) :
  List.filter (fun x => p x && q x) l = List.filter q (List.filter p l).
Proof.
  induction l as [|x l IH]; simpl; [reflexivity |].
  destruct (p x) eqn:Hp; simpl; [| exact IH].
  destruct (q x); rewrite IH; reflexivity.
Qed.

Lemma filter_all {A : Type} (p : A -> bool) (l : list A) :
  (forall x, p x = true) -> List.filter p l = l.
Proof.
  intros Hp. induction l as [|x l IH]; simpl; [reflexivity |].
  rewrite Hp, IH. reflexivity.
Qed.

Lemma filter_twice {A : Type} (p : A -> bool) (l : list A) :
  List.filter p (List.filter p l) = List.filter p l.
Proof.
  induction l as [|x l IH]; simpl; [reflexivity |].
  destruct (p x) eqn:Hp; simpl; rewrite ?Hp, IH; reflexivity.
Qed.

Lemma lower_char_twice (a : ascii) : lower_char (lower_char a) = lower_char a.
Proof. destruct a as [[] [] [] [] [] [] [] []]; reflexivity. Qed.

Lemma toLowerCase_twice (s : string) :
  toLowerCase (toLowerCase s) = toLowerCase s.
Proof.
  induction s as [|a r IH]; simpl; [reflexivity |].
  rewrite lower_char_twice, IH. reflexivity.
Qed.

Lemma toLowerCase_empty (s : string) :
  String.eqb (toLowerCase s) "" = String.eqb s "".
Proof. destruct s; reflexivity. Qed.

End FilterFacts.

(** X18.  With the criteria [clearFilters] sets (no query, no category,
    no level, no published flag) the filtered view is the whole list,
    in its order. *)
Theorem cleared_filter_shows_everything (courses : list CourseList.Course) :
  CourseFilter.filteredCourses CourseFilter.cleared courses = courses.
Proof.
  unfold CourseFilter.filteredCourses. apply FilterFacts.filter_all.
  intros x. reflexivity.
Qed.

(** X19.  The four criteria act independently and in any order: the view
    under all of them is what is left after filtering by the query, then
    the categories, then the level, then the published flag, and also in
    the opposite order; narrowing a view by other criteria commutes, and
    filtering a view again by its own criteria changes nothing. *)
Theorem filters_commute (c c' : CourseFilter.criteria)
    (courses : list CourseList.Course) :
  CourseFilter.filteredCourses c courses
  = List.filter (CourseFilter.matchesPublished c)
      (List.filter (CourseFilter.matchesLevel c)
         (List.filter (CourseFilter.matchesCategory c)
            (List.filter (CourseFilter.matchesSearch c) courses))) /\
  CourseFilter.filteredCourses c courses
  = List.filter (CourseFilter.matchesSearch c)
      (List.filter (CourseFilter.matchesCategory c)
         (List.filter (CourseFilter.matchesLevel c)
            (List.filter (CourseFilter.matchesPublished c) courses))) /\
  CourseFilter.filteredCourses c (CourseFilter.filteredCourses c' courses)
  = CourseFilter.filteredCourses c' (CourseFilter.filteredCourses c courses) /\
  CourseFilter.filteredCourses c (CourseFilter.filteredCourses c courses)
  = CourseFilter.filteredCourses c courses.
Proof.
  unfold CourseFilter.filteredCourses.
  assert (H : forall l,
    List.filter (CourseFilter.matches c) l
    = List.filter (CourseFilter.matchesPublished c)
        (List.filter (CourseFilter.matchesLevel c)
           (List.filter (CourseFilter.matchesCategory c)
              (List.filter (CourseFilter.matchesSearch c) l)))).
  { intros l. unfold CourseFilter.matches.
    rewrite !FilterFacts.filter_andb. reflexivity. }
  split; [apply H |]. split; [| split].
  - rewrite H.
    rewrite (FilterFacts.filter_filter_comm (CourseFilter.matchesPublished c)).
    rewrite (FilterFacts.filter_filter_comm (CourseFilter.matchesPublished c)).
    rewrite (FilterFacts.filter_filter_comm (CourseFilter.matchesPublished c)).
    rewrite (FilterFacts.filter_filter_comm (CourseFilter.matchesLevel c)).
    rewrite (FilterFacts.filter_filter_comm (CourseFilter.matchesLevel c)).
    rewrite (FilterFacts.filter_filter_comm (CourseFilter.matchesCategory c)).
    reflexivity.
  - apply FilterFacts.filter_filter_comm.
  - apply FilterFacts.filter_twice.
Qed.

(** X20.  The search does not depend on the case of the letters of the
    query: a query and its lower-case form select the same courses. *)
Theorem search_ignores_case_of_query (c : CourseFilter.criteria)
    (courses : list CourseList.Course) :
  CourseFilter.filteredCourses
    (CourseFilter.mkCriteria (toLowerCase (CourseFilter.searchQuery c))
       (CourseFilter.selectedCategories c) (CourseFilter.selectedLevel c)
       (CourseFilter.publishedFilter c)) courses
  = CourseFilter.filteredCourses c courses.
Proof.
  unfold CourseFilter.filteredCourses. apply filter_ext. intros x.
  unfold CourseFilter.matches, CourseFilter.matchesSearch,
    CourseFilter.matchesCategory, CourseFilter.matchesLevel,
    CourseFilter.matchesPublished. simpl.
  rewrite FilterFacts.toLowerCase_twice, FilterFacts.toLowerCase_empty.
  reflexivity.
Qed.

(** ** The sorted view, continued *)

Module SortMore.
Import CourseList.

Section Insertion.
Context {A : Type}.
Variable compareFn : A -> A -> Z.

Lemma sort_insert_perm (x : A) (l : list A) :
  sort_insert compareFn x l ≡ₚ x :: l.
Proof.
  induction l as [|y r IH]; simpl; [reflexivity |].
  destruct (compareFn x y <=? 0); [reflexivity |].
  rewrite IH. apply Permutation_swap.
Qed.

Lemma Array_sort_perm (l : list A) : Array_sort compareFn l ≡ₚ l.
Proof.
  induction l as [|x r IH]; simpl; [reflexivity |].
  rewrite sort_insert_perm, IH. reflexivity.
Qed.

End Insertion.

Lemma Sorted_weaken {A : Type} (R R' : A -> A -> Prop) (l : list A) :
  (forall x y, R x y -> R' x y) -> Sorted R l -> Sorted R' l.
Proof.
  intros HR. induction 1 as [|x l Hl IH Hhd]; constructor; [exact IH |].
  destruct Hhd; constructor. apply HR. assumption.
Qed.

Lemma sort_value_unknown (Date_time : string -> float) (sortField : string)
    (c : Course) :
  ~ In sortField
      ["title"; "category"; "level"; "duration"; "createdAt"; "updatedAt"] ->
  sort_value Date_time sortField c = None.
Proof.
  intros Hnot. unfold sort_value.
  repeat match goal with
  | |- context [String.eqb sortField ?k] =>
      destruct (String.eqb_spec sortField k) as [->|_];
        [exfalso; apply Hnot; simpl; tauto |]
  end.
  reflexivity.
Qed.

End SortMore.

(** X21.  Sorting neither drops nor duplicates a course: the sorted view
    is a permutation of the filtered list, so it has the same length. *)
Theorem sortedCourses_permutation (Date_time : string -> float)
    (sortField : string) (sortDirection : CourseList.direction)
    (courses : list CourseList.Course) :
  CourseList.sortedCourses Date_time sortField sortDirection courses
    ≡ₚ courses /\
  length (CourseList.sortedCourses Date_time sortField sortDirection courses)
    = length courses.
Proof.
  assert (H : CourseList.sortedCourses Date_time sortField sortDirection courses
              ≡ₚ courses) by apply SortMore.Array_sort_perm.
  split; [exact H | rewrite H; reflexivity].
Qed.

(** X22.  The sorted view is in order: for two neighbours [a], [b] of the
    view whose sort values are [ka], [kb], ascending order never has
    [kb < ka] and descending order never has [ka < kb]. *)
Theorem sortedCourses_in_order (Date_time : string -> float)
    (sortField : string) (sortDirection : CourseList.direction)
    (courses : list CourseList.Course) :
  Sorted
    (fun a b => forall ka kb,
       CourseList.sort_value Date_time sortField a = Some ka ->
       CourseList.sort_value Date_time sortField b = Some kb ->
       match sortDirection with
       | CourseList.asc => CourseList.js_lt kb ka = false
       | CourseList.desc => CourseList.js_lt ka kb = false
       end)
    (CourseList.sortedCourses Date_time sortField sortDirection courses).
Proof.
  apply (SortMore.Sorted_weaken
           (fun a b =>
              CourseList.compareCourses Date_time sortField sortDirection a b
              <= 0)).
  - intros a b Hle ka kb Ha Hb. unfold CourseList.compareCourses in Hle.
    rewrite Ha, Hb in Hle.
    destruct (CourseList.js_lt ka kb) eqn:Hab.
    + destruct sortDirection; [| lia].
      apply SortFacts.js_lt_asym. exact Hab.
    + destruct (CourseList.js_lt kb ka); destruct sortDirection;
        try reflexivity; lia.
  - apply SortFacts.Array_sort_in_order.
    intros x y. apply SortFacts.compareCourses_flip.
Qed.

(** X23.  An unknown sort field leaves the order alone: when [sortField]
    is none of the six names of the [switch], the comparator is constantly
    0 and the sorted view is the filtered list itself. *)
Theorem unknown_sort_field_keeps_order (Date_time : string -> float)
    (sortField : string) (sortDirection : CourseList.direction)
    (courses : list CourseList.Course) :
  ~ In sortField
      ["title"; "category"; "level"; "duration"; "createdAt"; "updatedAt"] ->
  CourseList.sortedCourses Date_time sortField sortDirection courses = courses.
Proof.
  intros Hnot. unfold CourseList.sortedCourses.
  apply SortFacts.Array_sort_fixed.
  unfold SortFacts.in_order.
  assert (Hzero : forall a b,
    CourseList.compareCourses Date_time sortField sortDirection a b = 0).
  { intros a b. unfold CourseList.compareCourses.
    rewrite (SortMore.sort_value_unknown Date_time sortField a Hnot).
    reflexivity. }
  induction courses as [|x l IH]; constructor; [exact IH |].
  destruct l; constructor. rewrite Hzero. lia.
Qed.

Lemma unknown_sort_field_keeps_order_witness :
  CourseList.sortedCourses (fun _ => 0%float) "price" CourseList.asc
    [CourseList.mkCourse "a" "Zeta" "" "X" "beginner" 40 true "1" "" "";
     CourseList.mkCourse "b" "Alpha" "" "Y" "advanced" 5 true "1" "" ""]
  = [CourseList.mkCourse "a" "Zeta" "" "X" "beginner" 40 true "1" "" "";
     CourseList.mkCourse "b" "Alpha" "" "Y" "advanced" 5 true "1" "" ""].
Proof.
  apply (unknown_sort_field_keeps_order (fun _ => 0%float) "price"
           CourseList.asc).
  simpl. intros H. repeat (destruct H as [H|H]; [discriminate |]). exact H.
Defined.

(** X24.  A list that is already in the order of the comparator is
    returned as it is: courses that compare equal keep the order they had
    (the sort is stable on such input). *)
Theorem ordered_view_is_kept (Date_time : string -> float)
    (sortField : string) (sortDirection : CourseList.direction)
    (courses : list CourseList.Course) :
  Sorted
    (fun a b =>
       CourseList.compareCourses Date_time sortField sortDirection a b <= 0)
    courses ->
  CourseList.sortedCourses Date_time sortField sortDirection courses = courses.
Proof. intros H. apply SortFacts.Array_sort_fixed. exact H. Qed.

Lemma ordered_view_is_kept_witness :
  CourseList.sortedCourses (fun _ => 0%float) "level" CourseList.asc
    [CourseList.mkCourse "a" "Zeta" "" "X" "advanced" 40 true "1" "" "";
     CourseList.mkCourse "b" "Alpha" "" "Y" "beginner" 5 true "1" "" "";
     CourseList.mkCourse "c" "Beta" "" "Y" "beginner" 7 true "1" "" ""]
  = [CourseList.mkCourse "a" "Zeta" "" "X" "advanced" 40 true "1" "" "";
     CourseList.mkCourse "b" "Alpha" "" "Y" "beginner" 5 true "1" "" "";
     CourseList.mkCourse "c" "Beta" "" "Y" "beginner" 7 true "1" "" ""].
Proof.
  apply (ordered_view_is_kept (fun _ => 0%float) "level" CourseList.asc).
  repeat constructor; vm_compute; discriminate.
Defined.

(** ** The course form and the server *)

Module FormFacts.
Import Middleware CourseFormData.

Lemma set_if_empty (b : bool) (k msg : string) (errors : gmap string string) :
  set_if b k msg errors = ∅ -> b = false /\ errors = ∅.
Proof.
  destruct b; simpl.
  - intros H. exfalso. exact (insert_non_empty errors k msg H).
  - auto.
Qed.

Lemma validate_checks (f : FormData) :
  validate f = true ->
  String.eqb (trim (title f)) "" = false /\
  String.eqb (trim (description f)) "" = false /\
  String.eqb (trim (category f)) "" = false /\
  existsb (String.eqb (level f)) ["beginner"; "intermediate"; "advanced"]
    = true /\
  CourseForm.duration_error (duration f) = false.
Proof.
  unfold validate. intros H. apply Nat.eqb_eq, map_size_empty_iff in H.
  unfold form_errors in H.
  apply set_if_empty in H as [H5 H]. apply set_if_empty in H as [H4 H].
  apply set_if_empty in H as [H3 H]. apply set_if_empty in H as [H2 H].
  apply set_if_empty in H as [H1 _].
  apply negb_false_iff in H4. auto.
Qed.

Lemma text_passes (s : string) :
  String.eqb (trim s) "" = false -> not_text (VStr s) = false.
Proof.
  intros H. unfold not_text. simpl.
  destruct s as [|a r]; [discriminate |]. simpl.
  destruct (trim (String a r)); [discriminate | reflexivity].
Qed.

Lemma level_passes (s : string) :
  existsb (String.eqb s) ["beginner"; "intermediate"; "advanced"] = true ->
  not_level (VStr s) = false.
Proof.
  intros H. cbn [existsb] in H.
  destruct (String.eqb_spec s "beginner") as [E|_];
    [rewrite E; reflexivity |].
  destruct (String.eqb_spec s "intermediate") as [E|_];
    [rewrite E; reflexivity |].
  destruct (String.eqb_spec s "advanced") as [E|_];
    [rewrite E; reflexivity |].
  discriminate.
Qed.

Lemma duration_passes (d : float) :
  CourseForm.duration_error d = false ->
  json_number d = VNum d /\ not_duration (VNum d) = false.
Proof.
  unfold CourseForm.duration_error. intros H.
  apply orb_false_elim in H as [Hle Hint]. apply negb_false_iff in Hint.
  split; [| simpl; exact Hle].
  unfold json_number. unfold isInteger in Hint.
  destruct (Prim2SF d) as [sz|si| |sf m e] eqn:Hd; try discriminate;
    [| reflexivity].
  rewrite FloatAxioms.leb_spec, Hd in Hle.
  destruct sz; vm_compute in Hle; discriminate.
Qed.

End FormFacts.

(** X25.  What the course form lets through, the server accepts: when
    [validate] finds no error in the form data, the body the form submits
    passes [validateCourse], with the duration the form holds. *)
Theorem form_data_passes_server_validation (f : CourseFormData.FormData) :
  CourseFormData.validate f = true ->
  Middleware.validateCourse (CourseFormData.request_body f) = None /\
  get (CourseFormData.request_body f) "duration"
    = VNum (CourseFormData.duration f) /\
  isInteger (CourseFormData.duration f) = true.
Proof.
  intros H. apply FormFacts.validate_checks in H as (H1 & H2 & H3 & H4 & H5).
  destruct (FormFacts.duration_passes _ H5) as [Hjson Hdur].
  assert (Hget : get (CourseFormData.request_body f) "duration"
                 = VNum (CourseFormData.duration f)).
  { unfold get, CourseFormData.request_body.
    rewrite !lookup_insert_ne by discriminate.
    rewrite lookup_insert_eq. simpl. exact Hjson. }
  split; [| split; [exact Hget |]].
  - unfold Middleware.validateCourse, Middleware.course_errors.
    rewrite Hget, Hdur.
    replace (get (CourseFormData.request_body f) "title")
      with (VStr (CourseFormData.title f)) by reflexivity.
    replace (get (CourseFormData.request_body f) "description")
      with (VStr (CourseFormData.description f)) by reflexivity.
    replace (get (CourseFormData.request_body f) "category")
      with (VStr (CourseFormData.category f)) by reflexivity.
    replace (get (CourseFormData.request_body f) "level")
      with (VStr (CourseFormData.level f)) by reflexivity.
    replace (get (CourseFormData.request_body f) "published")
      with (VBool (CourseFormData.published f)) by reflexivity.
    rewrite (FormFacts.text_passes _ H1), (FormFacts.text_passes _ H2),
      (FormFacts.text_passes _ H3), (FormFacts.level_passes _ H4).
    reflexivity.
  - unfold CourseForm.duration_error in H5.
    apply orb_false_elim in H5 as [_ H5]. apply negb_false_iff in H5.
    exact H5.
Qed.

Lemma form_data_passes_server_validation_witness :
  let f := CourseFormData.mkFormData "T" "D" "C" "beginner" 5 false "2" in
  Middleware.validateCourse (CourseFormData.request_body f) = None /\
  get (CourseFormData.request_body f) "duration" = VNum 5 /\
  isInteger 5 = true.
Proof.
  apply (form_data_passes_server_validation
           (CourseFormData.mkFormData "T" "D" "C" "beginner" 5 false "2")).
  vm_compute. reflexivity.
Defined.

(** ** Reading one course, and the course count of the profile *)

(** X26.  Reading one course.  For a path identifier that is not empty:
    when no stored course has it, GET /courses/:id answers 404 "Course not
    found"; when the first course with it is at position [i], the answer
    is 200 with that course, whose [id] is the identifier asked for.  In
    both cases the state is unchanged and no token is needed. *)
Theorem get_course_by_id (secret : string) (ts : value -> string)
    (ctx : Routes.context) (id : string) (st : Storage.state) :
  id <> "" ->
  (Forall (fun c => strict_eq (get c "id") (VStr id) = false)
     (Storage.courses st) ->
   Routes.handle secret ts ctx (Routes.GET_courses_id id) st
     = (Types.failure 404 "Course not found", st)) /\
  (forall i,
     Storage.findIndex (fun c => strict_eq (get c "id") (VStr id))
       (Storage.courses st) = Some i ->
     exists course,
       Storage.courses st !! i = Some course /\
       get course "id" = VStr id /\
       Routes.handle secret ts ctx (Routes.GET_courses_id id) st
         = (Types.mkResponse 200 true (Types.DObject course) None None, st)).
Proof.
  intros Hid. apply String.eqb_neq in Hid.
  simpl. unfold Routes.get_courses_id, Storage.getCourseById. rewrite Hid.
  split.
  - intros Hnone.
    destruct (List.find _ (Storage.courses st)) as [c|] eqn:Hfind;
      [| reflexivity].
    apply find_some in Hfind as [Hin Hc]. rewrite Forall_forall in Hnone.
    apply list_elem_of_In in Hin. rewrite (Hnone c Hin) in Hc. discriminate.
  - intros i Hidx.
    destruct (ArrayFacts.findIndex_Some _ _ _ Hidx) as (c & Hc & Hp & Hbefore).
    exists c. split; [exact Hc |]. split.
    + rewrite strict_eq_sym in Hp. apply UserFacts.strict_eq_VStr in Hp.
      exact Hp.
    + rewrite (CourseFacts.find_first _ _ i c Hc Hp Hbefore). reflexivity.
Qed.

Lemma get_course_by_id_witness :
  (Forall (fun c => strict_eq (get c "id") (VStr "4") = false)
     Storage.seed_courses ->
   Scenario.run Scenario.anonymous (Routes.GET_courses_id "4") Storage.init
     = (Types.failure 404 "Course not found", Storage.init)) /\
  (forall i,
     Storage.findIndex (fun c => strict_eq (get c "id") (VStr "4"))
       Storage.seed_courses = Some i ->
     exists course,
       Storage.seed_courses !! i = Some course /\
       get course "id" = VStr "4" /\
       Scenario.run Scenario.anonymous (Routes.GET_courses_id "4") Storage.init
         = (Types.mkResponse 200 true (Types.DObject course) None None,
            Storage.init)).
Proof.
  apply (get_course_by_id Scenario.default_secret Scenario.to_string_stub
           Scenario.anonymous "4" Storage.init).
  discriminate.
Defined.

(** X27.  The profile counts what is stored under the reader's id.  After
    an accepted creation, the [coursesCreated] of an authenticated reader
    is the count before the creation, plus one exactly when the [userId]
    of the submitted body is the reader's id: the owner of a course is
    whoever the body names, not whoever sent the request. *)
Theorem profile_counts_created_course (secret : string)
    (ts : value -> string) (creator reader : Routes.context) (body : object)
    (st : Storage.state) (creating reading : object) :
  Middleware.authenticateToken secret (Routes.authorization creator)
    (Routes.clockTimestamp creator) = inr creating ->
  Middleware.validateCourse body = None ->
  Middleware.authenticateToken secret (Routes.authorization reader)
    (Routes.clockTimestamp reader) = inr reading ->
  exists (before after : object) (n : nat),
    Types.r_data (fst (Routes.handle secret ts reader Routes.GET_profile st))
      = Types.DObject before /\
    Types.r_data
      (fst (Routes.handle secret ts reader Routes.GET_profile
              (snd (Routes.handle secret ts creator
                      (Routes.POST_courses body) st))))
      = Types.DObject after /\
    before !! "coursesCreated" = Some (VNum (number_of_Z (Z.of_nat n))) /\
    after !! "coursesCreated"
      = Some (VNum (number_of_Z (Z.of_nat
          (n + (if strict_eq (get body "userId") (get reading "id")
                then 1 else 0))))).
Proof.
  intros Hc Hvalid Hr.
  exists
    (<["lastLogin" := get reading "lastLogin"]>
       (<["coursesCreated" :=
            VNum (number_of_Z (Z.of_nat (length (List.filter
              (fun course => strict_eq (get course "userId") (get reading "id"))
              (Storage.courses st)))))]> reading)).
  eexists.
  exists (length (List.filter
            (fun course => strict_eq (get course "userId") (get reading "id"))
            (Storage.courses st))).
  simpl. unfold Routes.get_profile, Routes.post_courses, Routes.authenticated,
    Routes.validated.
  rewrite Hc, Hvalid, Hr. simpl.
  split; [reflexivity |]. split; [reflexivity |]. split.
  - rewrite lookup_insert_ne by discriminate. apply lookup_insert_eq.
  - rewrite lookup_insert_ne by discriminate. rewrite lookup_insert_eq.
    rewrite List.filter_app, length_app. simpl.
    replace (get (<["updatedAt" := VDate (Routes.now creator 2)]>
                   (<["createdAt" := VDate (Routes.now creator 1)]>
                      (<["id" := VStr (pretty (Routes.now creator 0))]> body)))
               "userId")
      with (get body "userId")
      by (unfold get; rewrite !lookup_insert_ne by discriminate; reflexivity).
    destruct (strict_eq (get body "userId") (get reading "id")); reflexivity.
Qed.

Lemma profile_counts_created_course_witness :
  exists (before after : object) (n : nat),
    Types.r_data (fst (Scenario.run Scenario.as_user Routes.GET_profile
                         Storage.init))
      = Types.DObject before /\
    Types.r_data
      (fst (Scenario.run Scenario.as_user Routes.GET_profile
              (snd (Scenario.run Scenario.as_user
                      (Routes.POST_courses
                         (<["userId" := VStr "2"]> Scenario.course_T))
                      Storage.init))))
      = Types.DObject after /\
    before !! "coursesCreated" = Some (VNum (number_of_Z (Z.of_nat n))) /\
    after !! "coursesCreated"
      = Some (VNum (number_of_Z (Z.of_nat
          (n + (if strict_eq
                     (get (<["userId" := VStr "2"]> Scenario.course_T) "userId")
                     (get Scenario.user_claims "id")
                then 1 else 0))))).
Proof.
  apply (profile_counts_created_course Scenario.default_secret
           Scenario.to_string_stub Scenario.as_user Scenario.as_user
           (<["userId" := VStr "2"]> Scenario.course_T) Storage.init
           Scenario.user_claims Scenario.user_claims).
  - vm_compute. reflexivity.
  - vm_compute. reflexivity.
  - vm_compute. reflexivity.
Defined.
